(** * A shallow embedding of the WhatsApp automation service
    (src/whatsapp_bot.py and src/app.py).

    The browser and the remote web client are external: their observable
    answers (is a chat list rendered, does the QR canvas appear, does the
    compose box accept the text, ...) are an oracle [Browser] kept in the
    world state.  The bot objects live in a heap indexed by object identity,
    the module-level [bot_instances] dict is an insertion-ordered association
    list from device ids to object identities, and the file system is the
    list of regular files and directories that exist.  CPython's reference
    counting is modelled where the code drops the last reference to a bot
    (an item assignment or [del] on [bot_instances], the end of the
    cleanup loop): the object is freed and its [__del__] calls [close]. *)

From Stdlib Require Import String Ascii List Bool ZArith Lia Permutation.
Import ListNotations.
Open Scope string_scope.
Open Scope Z_scope.

(** ** Python values *)

Inductive PyVal :=
| PyNone
| PyBool (b : bool)
| PyInt (z : Z)
| PyStr (s : string)
| PyPath (p : string).

(** A Python dict built from literals: an association list. *)
Definition PyDict := list (string * PyVal).

Definition py_truthy (v : PyVal) : bool :=
  match v with
  | PyNone => false
  | PyBool b => b
  | PyInt z => negb (z =? 0)
  | PyStr s => negb (String.eqb s "")
  | PyPath _ => true
  end.

(** A dict is truthy exactly when it is non-empty. *)
Definition py_truthy_dict (d : PyDict) : bool :=
  match d with [] => false | _ => true end.

Fixpoint py_dict_get (d : PyDict) (k : string) : PyVal :=
  match d with
  | [] => PyNone
  | (k', v) :: d' => if String.eqb k k' then v else py_dict_get d' k
  end.

Definition py_type_name (v : PyVal) : string :=
  match v with
  | PyNone => "NoneType"
  | PyBool _ => "bool"
  | PyInt _ => "int"
  | PyStr _ => "str"
  | PyPath _ => "PosixPath"
  end.

(** An optional string argument ([None] or a str). *)
Definition py_opt_truthy (o : option string) : bool :=
  match o with None => false | Some s => negb (String.eqb s "") end.

(** ** Strings *)

(** [str.isdigit], for phone numbers written in ASCII: strings are
    modelled as byte strings, so only the ASCII digits 0-9 count.  Python's
    [str.isdigit] also accepts other Unicode digits (superscripts, Arabic-Indic
    digits, ...), which this model does not cover. *)
Definition isdigit (c : ascii) : bool :=
  let n := nat_of_ascii c in (Nat.leb 48 n && Nat.leb n 57)%bool.

Fixpoint filter_str (p : ascii -> bool) (s : string) : string :=
  match s with
  | EmptyString => EmptyString
  | String c s' => if p c then String c (filter_str p s') else filter_str p s'
  end.

Fixpoint all_str (p : ascii -> bool) (s : string) : bool :=
  match s with
  | EmptyString => true
  | String c s' => (p c && all_str p s')%bool
  end.

(** [s.startswith(pre)] *)
Definition startswith (s pre : string) : bool := String.prefix pre s.

(** Lines 288-290 of [WhatsAppBot.send_message]:
<<
    clean_phone = ''.join(filter(str.isdigit, phone_number))
    if not clean_phone.startswith('91') and len(clean_phone) == 10:
        clean_phone = '91' + clean_phone
>> *)
Definition clean_phone (phone_number : string) : string :=
  let clean := filter_str isdigit phone_number in
  if (negb (startswith clean "91") && Nat.eqb (String.length clean) 10)%bool
  then "91" ++ clean
  else clean.

(** ** The file system *)

Definition mem (x : string) (l : list string) : bool :=
  existsb (String.eqb x) l.

Definition add (x : string) (l : list string) : list string :=
  if mem x l then l else l ++ [x].

Definition remove (x : string) (l : list string) : list string :=
  filter (fun y => negb (String.eqb x y)) l.

(** ** The external browser *)

Record Browser := mkBrowser {
  br_chrome_found : bool;      (* both Chrome and ChromeDriver executables found *)
  br_auth_answers : list bool; (* successive outcomes of the chat-list wait *)
  br_qr_shown : bool;          (* the QR canvas appears within the wait *)
  br_qr_capturable : bool;     (* one of the canvas selectors is found on capture *)
  br_scanned : bool;           (* a human scans the code within 300 s *)
  br_chat_loads : bool;        (* the compose box appears after navigation *)
  br_media_ok : bool;          (* [_send_media] returns True *)
  br_text_ok : bool;           (* [_send_text_message] returns True *)
  br_quit_raises : list bool   (* successive outcomes of [quit()] on the driver it
                                  launches: [true] raises; when the list is
                                  exhausted, [quit()] completes *)
}.

Definition br_pop_auth (br : Browser) : bool * Browser :=
  match br_auth_answers br with
  | [] => (false, br)
  | a :: rest =>
      (a, mkBrowser (br_chrome_found br) rest (br_qr_shown br) (br_qr_capturable br)
            (br_scanned br) (br_chat_loads br) (br_media_ok br) (br_text_ok br)
            (br_quit_raises br))
  end.

(** Browser actions that reach the remote client. *)
Inductive Event :=
| EvNavigate (url : string)
| EvSendMedia (path : string)
| EvSendText (message : string).

(** ** Bot objects *)

(** A driver handle: its identity and the outcomes of the [quit()] calls
    still to come ([true] raises, the Chrome process staying up). *)
Record Driver := mkDriver { drv_id : nat; drv_quit_raises : list bool }.

Record Bot := mkBot {
  device_id : string;
  headless : bool;
  driver : option Driver;
  session_dir : string;
  qr_code_path : string;
  is_authenticated : bool;
  whatsapp_url : string;
  profile_dir : string;
  last_activity : Z
}.

Definition set_driver (b : Bot) (d : option Driver) : Bot :=
  mkBot (device_id b) (headless b) d (session_dir b) (qr_code_path b)
        (is_authenticated b) (whatsapp_url b) (profile_dir b) (last_activity b).

Definition set_is_authenticated (b : Bot) (a : bool) : Bot :=
  mkBot (device_id b) (headless b) (driver b) (session_dir b) (qr_code_path b)
        a (whatsapp_url b) (profile_dir b) (last_activity b).

(** ** The world *)

Record World := mkWorld {
  w_reg : list (string * nat);   (* [bot_instances]: device id -> object *)
  w_heap : nat -> option Bot;    (* live [WhatsAppBot] objects *)
  w_next_oid : nat;
  w_files : list string;         (* regular files that exist *)
  w_dirs : list string;          (* directories that exist *)
  w_clock : Z;                   (* [time.time()] *)
  w_page : Browser;
  w_next_drv : nat;
  w_quits : list nat;            (* drivers whose [quit()] completed *)
  w_log : list Event
}.

Definition set_reg (w : World) r : World :=
  mkWorld r (w_heap w) (w_next_oid w) (w_files w) (w_dirs w) (w_clock w)
          (w_page w) (w_next_drv w) (w_quits w) (w_log w).
Definition set_heap (w : World) h : World :=
  mkWorld (w_reg w) h (w_next_oid w) (w_files w) (w_dirs w) (w_clock w)
          (w_page w) (w_next_drv w) (w_quits w) (w_log w).
Definition set_next_oid (w : World) n : World :=
  mkWorld (w_reg w) (w_heap w) n (w_files w) (w_dirs w) (w_clock w)
          (w_page w) (w_next_drv w) (w_quits w) (w_log w).
Definition set_files (w : World) f : World :=
  mkWorld (w_reg w) (w_heap w) (w_next_oid w) f (w_dirs w) (w_clock w)
          (w_page w) (w_next_drv w) (w_quits w) (w_log w).
Definition set_dirs (w : World) d : World :=
  mkWorld (w_reg w) (w_heap w) (w_next_oid w) (w_files w) d (w_clock w)
          (w_page w) (w_next_drv w) (w_quits w) (w_log w).
Definition set_page (w : World) p : World :=
  mkWorld (w_reg w) (w_heap w) (w_next_oid w) (w_files w) (w_dirs w) (w_clock w)
          p (w_next_drv w) (w_quits w) (w_log w).
Definition set_next_drv (w : World) n : World :=
  mkWorld (w_reg w) (w_heap w) (w_next_oid w) (w_files w) (w_dirs w) (w_clock w)
          (w_page w) n (w_quits w) (w_log w).
Definition set_quits (w : World) q : World :=
  mkWorld (w_reg w) (w_heap w) (w_next_oid w) (w_files w) (w_dirs w) (w_clock w)
          (w_page w) (w_next_drv w) q (w_log w).
Definition set_log (w : World) l : World :=
  mkWorld (w_reg w) (w_heap w) (w_next_oid w) (w_files w) (w_dirs w) (w_clock w)
          (w_page w) (w_next_drv w) (w_quits w) l.

Definition heap_set (h : nat -> option Bot) (o : nat) (b : Bot) : nat -> option Bot :=
  fun o' => if Nat.eqb o' o then Some b else h o'.

(** [os.makedirs(d, exist_ok=True)] *)
Definition makedirs (d : string) (w : World) : World := set_dirs w (add d (w_dirs w)).

(** ** Methods of [WhatsAppBot]: a state monad over (self, world) *)

Definition M (A : Type) : Type := Bot * World -> A * (Bot * World).

Definition ret {A} (a : A) : M A := fun s => (a, s).
Definition bind {A B} (m : M A) (k : A -> M B) : M B :=
  fun s => let (a, s') := m s in k a s'.

Notation "x <- m ;; k" := (bind m (fun x => k))
  (at level 61, m at next level, right associativity).
Notation "m ;;; k" := (bind m (fun _ => k))
  (at level 61, right associativity).

Definition get_self : M Bot := fun s => (fst s, s).
Definition put_self (b : Bot) : M unit := fun s => (tt, (b, snd s)).
Definition get_world : M World := fun s => (snd s, s).
Definition put_world (w : World) : M unit := fun s => (tt, (fst s, w)).

(** [WhatsAppBot.__init__] (lines 24-39). *)
Definition WhatsAppBot_init (dev : string) (hl : bool) (pdir : option string)
    (w : World) : Bot * World :=
  let sdir := "sessions/" ++ dev in
  let qr := "qr_codes/" ++ dev ++ "_qr.png" in
  let prof := match pdir with Some p => p | None => sdir ++ "/user_data" end in
  let w1 := makedirs prof (makedirs "qr_codes" (makedirs sdir w)) in
  (mkBot dev hl None sdir qr false "https://web.whatsapp.com/" prof (w_clock w1), w1).

(** The [--user-data-dir] that [_setup_driver] hands to Chrome (line 102). *)
Definition chrome_user_data_dir (b : Bot) : string := session_dir b ++ "/user_data".

(** [os.path.exists(p)]: a regular file or a directory. *)
Definition path_exists (p : string) (w : World) : bool :=
  (mem p (w_files w) || mem p (w_dirs w))%bool.
Arguments path_exists : simpl never.

(** [WhatsAppBot.close] (lines 447-457).  An exception raised by
    [driver.quit()] is caught and logged; nothing after it runs, so the bot
    keeps its driver, whose next [quit()] is the next outcome.  After a
    completed quit, [os.remove] deletes the scan-code file when it is a
    regular file; when the path is a directory, [os.path.exists] holds and
    [os.remove] raises, which is caught with nothing left to do. *)
Definition close : M unit :=
  b <- get_self ;;
  match driver b with
  | None => ret tt
  | Some d =>
      match drv_quit_raises d with
      | true :: rest => put_self (set_driver b (Some (mkDriver (drv_id d) rest)))
      | _ =>
          w <- get_world ;;
          put_self (set_is_authenticated (set_driver b None) false) ;;;
          let w1 := set_quits w (w_quits w ++ [drv_id d]) in
          put_world (if mem (qr_code_path b) (w_files w1)
                     then set_files w1 (remove (qr_code_path b) (w_files w1))
                     else w1)
      end
  end.

(** [WhatsAppBot.get_qr_code_path] (lines 444-445): returns the str path. *)
Definition get_qr_code_path (b : Bot) (w : World) : PyVal :=
  if path_exists (qr_code_path b) w then PyStr (qr_code_path b) else PyNone.

(** [_check_authentication] (lines 262-274): one bounded wait for a chat-list
    marker; on success sets [is_authenticated]. *)
Definition check_authentication : M bool :=
  w <- get_world ;;
  let (a, br) := br_pop_auth (w_page w) in
  put_world (set_page w br) ;;;
  if a then
    b <- get_self ;;
    put_self (set_is_authenticated b true) ;;;
    ret true
  else ret false.

(** [_setup_driver] (lines 87-175): a fresh driver replaces [self.driver]. *)
Definition setup_driver : M bool :=
  w <- get_world ;;
  if negb (br_chrome_found (w_page w)) then ret false
  else
    b <- get_self ;;
    let w1 := makedirs (session_dir b ++ "/user_data") w in
    put_self (set_driver b (Some (mkDriver (w_next_drv w1) (br_quit_raises (w_page w1))))) ;;;
    put_world (set_next_drv w1 (S (w_next_drv w1))) ;;;
    ret true.

(** [_wait_for_qr_code] (lines 210-221). *)
Definition wait_for_qr_code : M bool :=
  w <- get_world ;; ret (br_qr_shown (w_page w)).

(** [_save_qr_code] (lines 223-247): writes the canvas to [qr_code_path].
    [open(path, 'wb')] on a directory raises; the error is caught and the
    method returns False. *)
Definition save_qr_code : M bool :=
  w <- get_world ;;
  if br_qr_capturable (w_page w) then
    b <- get_self ;;
    if mem (qr_code_path b) (w_dirs w) then ret false
    else
      put_world (set_files w (add (qr_code_path b) (w_files w))) ;;;
      ret true
  else ret false.

(** [_wait_for_authentication] (lines 249-260): the 2 s polling loop ends in
    success exactly when the human scans within the timeout. *)
Definition wait_for_authentication : M bool :=
  w <- get_world ;;
  if br_scanned (w_page w) then
    b <- get_self ;;
    put_self (set_is_authenticated b true) ;;;
    ret true
  else ret false.

Definition ok_dict (qr_required : bool) : PyDict :=
  [("success", PyBool true); ("qr_required", PyBool qr_required)].
Definition err_dict (msg : string) : PyDict :=
  [("success", PyBool false); ("error", PyStr msg)].

Definition log_event (e : Event) : M unit :=
  w <- get_world ;; put_world (set_log w (w_log w ++ [e])).

(** [initialize_session] (lines 177-208). *)
Definition initialize_session : M PyDict :=
  ok <- setup_driver ;;
  if negb ok then ret (err_dict "Failed to setup WebDriver")
  else
    b <- get_self ;;
    log_event (EvNavigate (whatsapp_url b)) ;;;
    a <- check_authentication ;;
    if a then ret (ok_dict false)
    else
      qr <- wait_for_qr_code ;;
      if qr then
        save_qr_code ;;;
        auth <- wait_for_authentication ;;
        if auth then ret (ok_dict true) else ret (err_dict "Authentication timeout")
      else
        a2 <- check_authentication ;;
        if a2 then ret (ok_dict false)
        else ret (err_dict "Unable to load WhatsApp Web").

(** [_send_media] (lines 362-428). *)
Definition send_media (media_path : string) : M bool :=
  log_event (EvSendMedia media_path) ;;;
  w <- get_world ;; ret (br_media_ok (w_page w)).

(** [_send_text_message] (lines 326-360). *)
Definition send_text_message (message : string) : M bool :=
  log_event (EvSendText message) ;;;
  w <- get_world ;; ret (br_text_ok (w_page w)).

(** Lines 278-286 of [WhatsAppBot.send_message]: bootstrap the driver and
    re-check authentication; [Some r] is an early [return init_result]. *)
Definition ensure_ready : M (option PyDict) :=
  b0 <- get_self ;;
  r1 <- (match driver b0 with
         | Some _ => ret None
         | None =>
             r <- initialize_session ;;
             if py_truthy (py_dict_get r "success") then ret None else ret (Some r)
         end) ;;
  match r1 with
  | Some r => ret (Some r)
  | None =>
      b1 <- get_self ;;
      if is_authenticated b1 then ret None
      else
        a <- check_authentication ;;
        if a then ret None
        else
          r <- initialize_session ;;
          if py_truthy (py_dict_get r "success") then ret None else ret (Some r)
  end.

(** Lines 288-308 of [WhatsAppBot.send_message]: navigate, send the media
    if its file exists (a failure is only logged), then the text. *)
Definition deliver (phone_number : string) (message media_path : option string) : M PyDict :=
  let clean := clean_phone phone_number in
  log_event (EvNavigate ("https://web.whatsapp.com/send?phone=" ++ clean)) ;;;
  w <- get_world ;;
  if negb (br_chat_loads (w_page w)) then ret (err_dict "Failed to load chat interface")
  else
    (match media_path with
     | Some p => if (py_opt_truthy media_path && path_exists p w)%bool
                 then _ <- send_media p ;; ret tt
                 else ret tt
     | None => ret tt
     end) ;;;
    match message with
    | Some m =>
        if py_opt_truthy message then
          t <- send_text_message m ;;
          if t then ret [("success", PyBool true)]
          else ret (err_dict "Failed to send text message")
        else ret [("success", PyBool true)]
    | None => ret [("success", PyBool true)]
    end.

(** [WhatsAppBot.send_message] (lines 276-311). *)
Definition send_message (phone_number : string) (message media_path : option string)
    : M PyDict :=
  g <- ensure_ready ;;
  match g with
  | Some r => ret r
  | None => deliver phone_number message media_path
  end.

(** ** The registry and the HTTP routes of app.py *)

(** Running a method on the object with identity [o]; [None] is the
    [AttributeError] of a missing object. *)
Definition run_obj {A} (o : nat) (m : M A) (w : World) : option (A * World) :=
  match w_heap w o with
  | None => None
  | Some b =>
      let '(a, (b', w')) := m (b, w) in
      Some (a, set_heap w' (heap_set (w_heap w') o b'))
  end.

(** The [bot_instances] dict: lookup, item assignment and [del]. *)
Fixpoint dict_get (d : list (string * nat)) (k : string) : option nat :=
  match d with
  | [] => None
  | (k', v) :: d' => if String.eqb k k' then Some v else dict_get d' k
  end.

Fixpoint dict_set (d : list (string * nat)) (k : string) (v : nat) : list (string * nat) :=
  match d with
  | [] => [(k, v)]
  | (k', v') :: d' => if String.eqb k k' then (k, v) :: d' else (k', v') :: dict_set d' k v
  end.

Fixpoint dict_del (d : list (string * nat)) (k : string) : list (string * nat) :=
  match d with
  | [] => []
  | (k', v') :: d' => if String.eqb k k' then d' else (k', v') :: dict_del d' k
  end.

Inductive Response :=
| RJson (status : Z) (body : PyDict)
| RFile (path : string).

(** CPython frees a [WhatsAppBot] when its last reference goes.  The
    second [__del__] (lines 459-468, it replaces the first) runs [close()]
    inside a [try]; then the object is deallocated. *)
Definition finalize (o : nat) (w : World) : World :=
  match run_obj o close w with
  | Some (_, w1) => set_heap w1 (fun o' => if Nat.eqb o' o then None else w_heap w1 o')
  | None => w
  end.

(** [registered o w]: [bot_instances] still refers to [o]. *)
Definition registered (o : nat) (w : World) : bool :=
  existsb (Nat.eqb o) (map snd (w_reg w)).

(** The registry drops one reference to [o]: between requests the registry
    holds the only references to the bots, so [o] is finalized unless it is
    still registered under another key. *)
Definition release (o : nat) (w : World) : World :=
  if registered o w then w else finalize o w.

Section App.

(** The environment configuration read at import time. *)
Variable HEADLESS : bool.
Variable SESSION_TIMEOUT_MINUTES : Z.

(** [SESSIONS_DIR / device_id], rendered by [str]. *)
Definition session_path (dev : string) : string := "sessions/" ++ dev.

(** [get_or_create_bot] (lines 42-51).  The bot is constructed with
    [headless] and [profile_dir] only, so [device_id] takes its default.
    With [force_new] on a registered device, the assignment of line 50
    drops the registry's reference to the bot it replaces, which is then
    finalized. *)
Definition get_or_create_bot (dev : string) (force_new : bool) (w : World) : nat * World :=
  match (negb force_new, dict_get (w_reg w) dev) with
  | (true, Some o) => (o, w)
  | _ =>
      let (b, w1) := WhatsAppBot_init "default" HEADLESS (Some (session_path dev)) w in
      let o := w_next_oid w1 in
      let w2 := set_next_oid (set_heap w1 (heap_set (w_heap w1) o b)) (S o) in
      let w3 := set_reg w2 (dict_set (w_reg w2) dev o) in
      (o, match dict_get (w_reg w) dev with
          | Some old => release old w3
          | None => w3
          end)
  end.

(** The body of the [try] in the loop of [cleanup_old_sessions]:
    [inl] is a normal end, [inr] an exception with the state at the raise. *)
Definition cleanup_entry (current_time timeout_seconds : Z) (entry : string * nat)
    (w : World) : World + World :=
  let (dev, o) := entry in
  match w_heap w o with
  | None => inr w
  | Some b =>
      if current_time - last_activity b >? timeout_seconds then
        match run_obj o close w with
        | None => inr w
        | Some (_, w1) => inl (set_reg w1 (dict_del (w_reg w1) dev))
        end
      else inl w
  end.

(** [try: ... except Exception as e: logger.error(...)] *)
Definition try_log (r : World + World) : World :=
  match r with inl w => w | inr w => w end.

(** The order in which the references held by the loop of
    [cleanup_old_sessions] go: the snapshot list is freed when the loop is
    exhausted, its items from the last to the first, but the last item is
    still bound to the loop variable [bot] until the function returns. *)
Definition release_order {A} (l : list A) : list A :=
  match rev l with
  | [] => []
  | last :: earlier => (earlier ++ [last])%list
  end.

(** [cleanup_old_sessions] (lines 53-66): iterates a snapshot of the items;
    a deleted entry's bot stays alive until the snapshot's reference to it
    goes, after the loop. *)
Definition cleanup_old_sessions (w : World) : World :=
  let current_time := w_clock w in
  let timeout_seconds := SESSION_TIMEOUT_MINUTES * 60 in
  let snapshot := w_reg w in
  let w1 := fold_left (fun w e => try_log (cleanup_entry current_time timeout_seconds e w))
                      snapshot w in
  fold_left (fun w e => release (snd e) w) (release_order snapshot) w1.

(** [delete_session] route (lines 170-185): [close()], then [del], which
    drops the registry's reference to the bot. *)
Definition delete_session (dev : string) (w : World) : Response * World :=
  let ok := RJson 200 [("success", PyBool true);
                       ("message", PyStr ("Session " ++ dev ++ " deleted"))] in
  match dict_get (w_reg w) dev with
  | Some o =>
      match run_obj o close w with
      | Some (_, w') => (ok, release o (set_reg w' (dict_del (w_reg w') dev)))
      | None =>
          (RJson 500 [("success", PyBool false);
                      ("error", PyStr "'NoneType' object has no attribute 'close'")], w)
      end
  | None => (ok, w)
  end.

(** [send_message] route (lines 132-168), for a JSON body whose [phone] and
    [message] fields are strings or absent; [timestamp] is the clock. *)
Definition send_message_route (dev : string) (phone message : option string) (w : World)
    : Response * World :=
  match phone, message with
  | Some p, Some m =>
      if (py_opt_truthy phone && py_opt_truthy message)%bool then
        let (o, w1) := get_or_create_bot dev false w in
        match run_obj o (send_message p (Some m) None) w1 with
        | None =>
            (RJson 500 [("success", PyBool false); ("error", PyStr "'NoneType' object has no attribute 'send_message'");
                        ("device_id", PyStr dev); ("timestamp", PyInt (w_clock w1))], w1)
        | Some (success, w2) =>
            if py_truthy_dict success then
              (RJson 200 [("success", PyBool true); ("device_id", PyStr dev);
                          ("phone", PyStr p); ("timestamp", PyInt (w_clock w2))], w2)
            else
              (RJson 500 [("success", PyBool false); ("error", PyStr "Failed to send message");
                          ("device_id", PyStr dev); ("timestamp", PyInt (w_clock w2))], w2)
        end
      else
        (RJson 400 [("success", PyBool false);
                    ("error", PyStr "'phone' and 'message' fields are required")], w)
  | _, _ =>
      (RJson 400 [("success", PyBool false);
                  ("error", PyStr "'phone' and 'message' fields are required")], w)
  end.

(** [get_qr_code] route (lines 118-130). *)
Definition get_qr_code_route (dev : string) (w : World) : Response * World :=
  let (o, w1) := get_or_create_bot dev false w in
  match w_heap w1 o with
  | None => (RJson 500 [("success", PyBool false);
                        ("error", PyStr "'NoneType' object has no attribute 'get_qr_code_path'")], w1)
  | Some b =>
      let qr_path := get_qr_code_path b w1 in
      if py_truthy qr_path then
        match qr_path with
        | PyPath p =>
            if path_exists p w1 then (RFile p, w1)
            else (RJson 404 [("success", PyBool false); ("error", PyStr "QR code not available")], w1)
        | v =>
            (RJson 500 [("success", PyBool false);
                        ("error", PyStr ("'" ++ py_type_name v ++ "' object has no attribute 'exists'"))], w1)
        end
      else (RJson 404 [("success", PyBool false); ("error", PyStr "QR code not available")], w1)
  end.

End App.

(** ** More of app.py *)

(** [dict.get(k)] distinguishing a missing key. *)
Fixpoint py_dict_lookup (d : PyDict) (k : string) : option PyVal :=
  match d with
  | [] => None
  | (k', v) :: d' => if String.eqb k k' then Some v else py_dict_lookup d' k
  end.

(** [dict.get(k, default)] *)
Definition py_dict_get_default (d : PyDict) (k : string) (default : PyVal) : PyVal :=
  match py_dict_lookup d k with Some v => v | None => default end.

Definition py_opt_eqb (a b : option string) : bool :=
  match a, b with
  | Some x, Some y => String.eqb x y
  | None, None => true
  | _, _ => false
  end.

(** The [require_api_key] decorator (lines 31-40) applied to a route body
    [f]; [header] is the [X-API-KEY] request header. *)
Definition require_api_key (API_KEY header : option string)
    (f : World -> Response * World) (w : World) : Response * World :=
  if py_opt_truthy API_KEY then
    if (negb (py_opt_truthy header) || negb (py_opt_eqb header API_KEY))%bool
    then (RJson 401 [("success", PyBool false); ("error", PyStr "Invalid or missing API key")], w)
    else f w
  else f w.

(** [health_check] route (lines 187-194). *)
Definition health_check (w : World) : Response :=
  RJson 200 [("status", PyStr "ok"); ("timestamp", PyInt (w_clock w));
             ("active_sessions", PyInt (Z.of_nat (length (w_reg w))))].

(** [initialize_session] route (lines 68-116). *)
Definition initialize_session_route (HEADLESS : bool) (dev : string) (w : World)
    : Response * World :=
  let (o, w1) := get_or_create_bot HEADLESS dev false w in
  match w_heap w1 o with
  | None =>
      (RJson 500 [("success", PyBool false);
                  ("error", PyStr "Error initializing session: 'NoneType' object has no attribute 'is_authenticated'");
                  ("device_id", PyStr dev); ("timestamp", PyInt (w_clock w1))], w1)
  | Some b =>
      if is_authenticated b then
        (RJson 200 [("success", PyBool true); ("message", PyStr "Session already authenticated");
                    ("device_id", PyStr dev); ("qr_required", PyBool false);
                    ("timestamp", PyInt (w_clock w1))], w1)
      else
        match run_obj o initialize_session w1 with
        | None =>
            (RJson 500 [("success", PyBool false);
                        ("error", PyStr "Error initializing session: 'NoneType' object has no attribute 'initialize_session'");
                        ("device_id", PyStr dev); ("timestamp", PyInt (w_clock w1))], w1)
        | Some (result, w2) =>
            if py_truthy (py_dict_get result "success") then
              (RJson 200 [("success", PyBool true);
                          ("message", PyStr "Session initialized successfully");
                          ("device_id", PyStr dev);
                          ("qr_required", py_dict_get_default result "qr_required" (PyBool false));
                          ("qr_url", if py_truthy (py_dict_get result "qr_required")
                                     then PyStr ("/qr/" ++ dev) else PyNone);
                          ("timestamp", PyInt (w_clock w2))], w2)
            else
              (RJson 500 [("success", PyBool false);
                          ("error", py_dict_get_default result "error"
                                      (PyStr "Unknown error initializing session"));
                          ("device_id", PyStr dev); ("timestamp", PyInt (w_clock w2))], w2)
        end
  end.

(** ** Locating the executables (lines 50-85) *)

Definition chrome_possible_paths : list string :=
  ["/usr/bin/google-chrome"; "/usr/bin/google-chrome-stable"; "/usr/bin/chromium-browser";
   "/usr/bin/chromium"; "/opt/google/chrome/chrome"].
Definition chrome_which_names : list string :=
  ["google-chrome"; "google-chrome-stable"; "chromium"].
Definition chromedriver_possible_paths : list string :=
  ["/usr/local/bin/chromedriver"; "/usr/bin/chromedriver"; "/opt/chromedriver"; "/app/chromedriver"].
Definition chromedriver_which_names : list string := ["chromedriver"].

(** [shutil.which(a) or shutil.which(b) or ...]: the first truthy lookup,
    else the last value. *)
Fixpoint which_or (which : string -> option string) (names : list string) : option string :=
  match names with
  | [] => None
  | [n] => which n
  | n :: rest => if py_opt_truthy (which n) then which n else which_or which rest
  end.

(** The shared shape of [_find_chrome_executable] and
    [_find_chromedriver_executable]: [os.path.exists] over the well-known
    paths in order, then the PATH lookup. *)
Definition find_executable (possible_paths names : list string)
    (path_exists : string -> bool) (which : string -> option string) : option string :=
  match find path_exists possible_paths with
  | Some p => Some p
  | None => if py_opt_truthy (which_or which names) then which_or which names else None
  end.

Definition find_chrome_executable := find_executable chrome_possible_paths chrome_which_names.
Definition find_chromedriver_executable :=
  find_executable chromedriver_possible_paths chromedriver_which_names.

(** ** Typing a message (lines 326-360) *)

(** [str.split(sep)] for a one-character separator. *)
Fixpoint py_split (sep : ascii) (s : string) : list string :=
  match s with
  | EmptyString => [""]
  | String c s' =>
      if Ascii.eqb c sep then "" :: py_split sep s'
      else match py_split sep s' with
           | h :: t => String c h :: t
           | [] => [String c ""]
           end
  end.

Definition newline : ascii := Ascii.ascii_of_nat 10.

Inductive Key :=
| KText (s : string)   (* [send_keys(line)] *)
| KShiftEnter          (* [send_keys(Keys.SHIFT + Keys.ENTER)] *)
| KEnter.              (* [send_keys(Keys.ENTER)] *)

(** The loop [for i, line in enumerate(lines)] and the final ENTER. *)
Definition message_keys (message : string) : list Key :=
  let lines := py_split newline message in
  flat_map (fun '(i, line) =>
              KText line :: (if Nat.ltb i (length lines - 1) then [KShiftEnter] else []))
           (combine (seq 0 (length lines)) lines) ++ [KEnter].

(** The double-quote character. *)
Definition dq : string := String (Ascii.ascii_of_nat 34) EmptyString.

Definition input_selectors : list string :=
  ["div[data-testid=" ++ dq ++ "conversation-compose-box-input" ++ dq ++ "]";
   "div[contenteditable=" ++ dq ++ "true" ++ dq ++ "][data-tab=" ++ dq ++ "10" ++ dq ++ "]";
   "div[role=" ++ dq ++ "textbox" ++ dq ++ "]"].

(** [_send_text_message]: the first selector that becomes clickable within
    its wait is the message box; the keys sent, or [None] when no box is found
    (the method then returns False). *)
Definition send_text_message_keys (clickable : string -> bool) (message : string)
    : option (string * list Key) :=
  match find clickable input_selectors with
  | None => None
  | Some sel => Some (sel, message_keys message)
  end.

(** What the compose box shows once the keys are typed: SHIFT+ENTER inserts a
    line break, ENTER submits. *)
Fixpoint composed_text (ks : list Key) : string :=
  match ks with
  | [] => ""
  | KText s :: ks' => s ++ composed_text ks'
  | KShiftEnter :: ks' => String newline (composed_text ks')
  | KEnter :: ks' => composed_text ks'
  end.

(** ** The authentication polling loop (lines 249-260)

    [end_time = time.time() + timeout; while time.time() < end_time: ...],
    with times in milliseconds.  One [_check_authentication] (lines 262-274)
    ends in one of three ways: a chat-list marker is found (success), the
    [WebDriverWait] times out ([TimeoutException], the check returns False),
    or another exception propagates to the [except] of
    [_wait_for_authentication], which returns False. *)
Inductive Check :=
| CFound
| CTimeout (extra_ms : nat)
| CError.

(** The least duration of a check that times out.  [any_element_present]
    calls [find_element] on each of the four selectors, and every call on
    a missing element lasts the implicit wait of 5 s ([implicitly_wait(5)],
    line 169); [WebDriverWait.until] then sleeps its 0.5 s poll interval
    before it compares the clock with its 5 s deadline.  [extra_ms] of
    [CTimeout] is the time spent beyond that. *)
Definition failed_check_ms : Z := 4 * 5000 + 500.

(** A failed round: the check, then [time.sleep(2)]. *)
Definition round_ms : Z := failed_check_ms + 2000.

(** The result and the number of checks made; when [checks] runs out, the
    later checks time out in the least time.  Each round advances the clock
    by at least [round_ms], so a fuel of [timeout] rounds is more than the
    loop can use (the theorem below shows that more fuel changes nothing). *)
Fixpoint wait_poll (fuel : nat) (now end_time : Z) (checks : list Check) : bool * nat :=
  match fuel with
  | O => (false, O)
  | S fuel' =>
      if now <? end_time then
        match checks with
        | CFound :: _ => (true, 1%nat)
        | CError :: _ => (false, 1%nat)
        | CTimeout x :: rest =>
            let (r, k) := wait_poll fuel' (now + round_ms + Z.of_nat x) end_time rest in
            (r, S k)
        | [] =>
            let (r, k) := wait_poll fuel' (now + round_ms) end_time [] in (r, S k)
        end
      else (false, O)
  end.

Definition wait_for_authentication_poll (timeout now : Z) (checks : list Check) : bool * nat :=
  wait_poll (S (Z.to_nat timeout)) now (now + 1000 * timeout) checks.

(** * Properties *)

(** ** Helper lemmas *)

Lemma all_str_filter (p : ascii -> bool) (s : string) :
  all_str p (filter_str p s) = true.
Proof.
  induction s as [|c s IH]; simpl; [reflexivity|].
  destruct (p c) eqn:Hc; simpl; [rewrite Hc|]; auto.
Qed.

Lemma filter_str_all (p : ascii -> bool) (s : string) :
  all_str p s = true -> filter_str p s = s.
Proof.
  induction s as [|c s IH]; simpl; [reflexivity|].
  intros H. apply andb_prop in H as [Hc Hs]. rewrite Hc, (IH Hs). reflexivity.
Qed.

Lemma dict_get_set (d : list (string * nat)) (k : string) (v : nat) :
  dict_get (dict_set d k v) k = Some v.
Proof.
  induction d as [|[k' v'] d IH]; simpl.
  - rewrite String.eqb_refl. reflexivity.
  - destruct (String.eqb k k') eqn:E; simpl.
    + rewrite String.eqb_refl. reflexivity.
    + rewrite E. exact IH.
Qed.

(** ** C6: phone normalization *)

(** C6. [send_message] normalizes the phone number by keeping its digits and,
    when exactly 10 digits remain and they do not already start with the
    country code 91, prefixing 91.  The result consists of digits only;
    "9876543210" and "+91 98765 43210" both become "919876543210"; a
    12-digit number already starting with 91 is left unchanged. *)
Theorem C6_clean_phone_spec (s : string) :
  all_str isdigit (clean_phone s) = true /\
  (String.length (filter_str isdigit s) = 10%nat ->
   startswith (filter_str isdigit s) "91" = false ->
   clean_phone s = "91" ++ filter_str isdigit s) /\
  (String.length (filter_str isdigit s) <> 10%nat \/
   startswith (filter_str isdigit s) "91" = true ->
   clean_phone s = filter_str isdigit s) /\
  clean_phone "9876543210" = "919876543210" /\
  clean_phone "+91 98765 43210" = "919876543210" /\
  (all_str isdigit s = true -> String.length s = 12%nat -> startswith s "91" = true ->
   clean_phone s = s).
Proof.
  unfold clean_phone.
  split; [|split; [|split; [|split; [|split]]]].
  - destruct (_ && _)%bool; [simpl|]; apply all_str_filter.
  - intros Hl Hp. rewrite Hl, Hp. reflexivity.
  - intros [Hl | Hp].
    + apply Nat.eqb_neq in Hl. rewrite Hl, andb_false_r. reflexivity.
    + rewrite Hp. reflexivity.
  - reflexivity.
  - reflexivity.
  - intros Hd Hl Hp. rewrite (filter_str_all _ _ Hd), Hl, Hp. reflexivity.
Qed.

Lemma C6_clean_phone_witness :
  clean_phone "98765-43210" = "91" ++ filter_str isdigit "98765-43210".
Proof.
  apply (proj1 (proj2 (C6_clean_phone_spec "98765-43210"))); reflexivity.
Defined.

(** ** C10: get_or_create_bot is idempotent without force_new *)

(** C10. Calling [get_or_create_bot dev] (no [force_new]) right after a
    first call returns the same object and leaves the whole state, the
    registry included, unchanged. *)
Theorem C10_get_or_create_twice (HEADLESS : bool) (dev : string) (w : World) :
  let (o1, w1) := get_or_create_bot HEADLESS dev false w in
  get_or_create_bot HEADLESS dev false w1 = (o1, w1).
Proof.
  unfold get_or_create_bot; simpl.
  destruct (dict_get (w_reg w) dev) as [o|] eqn:E; simpl.
  - rewrite E. reflexivity.
  - rewrite dict_get_set. reflexivity.
Qed.

(** ** C9: close *)

(** The bot that [close] leaves behind. *)
Definition close_self (b : Bot) : Bot :=
  match driver b with
  | Some d =>
      match drv_quit_raises d with
      | true :: rest => set_driver b (Some (mkDriver (drv_id d) rest))
      | _ => set_is_authenticated (set_driver b None) false
      end
  | None => b
  end.

(** The driver that [close] quits, if any. *)
Definition quit_of (b : Bot) : list nat :=
  match driver b with
  | Some d => match drv_quit_raises d with true :: _ => [] | _ => [drv_id d] end
  | None => []
  end.

Ltac close_unfold :=
  unfold close, bind, get_self, get_world, put_self, put_world, ret; simpl.

Lemma close_self_eq (b : Bot) (w : World) : fst (snd (close (b, w))) = close_self b.
Proof.
  close_unfold. unfold close_self.
  destruct (driver b) as [[i [|[|] q]]|]; simpl; reflexivity.
Qed.

Lemma close_world_reg_heap (b : Bot) (w : World) :
  w_reg (snd (snd (close (b, w)))) = w_reg w /\
  w_heap (snd (snd (close (b, w)))) = w_heap w.
Proof.
  close_unfold.
  destruct (driver b) as [[i [|[|] q]]|]; simpl; auto; destruct (mem _ _); simpl; auto.
Qed.

Lemma close_world_other (b : Bot) (w : World) :
  let w' := snd (snd (close (b, w))) in
  w_next_oid w' = w_next_oid w /\ w_clock w' = w_clock w /\ w_dirs w' = w_dirs w /\
  w_quits w' = (w_quits w ++ quit_of b)%list.
Proof.
  close_unfold. unfold quit_of.
  destruct (driver b) as [[i [|[|] q]]|]; simpl; rewrite ?app_nil_r; repeat split;
    destruct (mem _ _); reflexivity.
Qed.

Definition qr_bot : Bot :=
  mkBot "default" true None "sessions/default" "qr_codes/default_qr.png" false
        "https://web.whatsapp.com/" "sessions/d" 0.

(** An authenticated bot whose driver's first [quit()] raises and whose
    second one completes. *)
Definition retry_bot : Bot :=
  mkBot "default" true (Some (mkDriver 7 [true])) "sessions/default" "qr_codes/default_qr.png"
        true "https://web.whatsapp.com/" "sessions/d" 0.

Definition idle_browser : Browser :=
  mkBrowser true [] false false false false false false [].

Definition qr_world : World :=
  mkWorld [] (fun _ => None) 0 ["qr_codes/default_qr.png"] [] 0 idle_browser 0 [] [].

(** C9 counterexample.  First, a session without a driver whose scan-code
    file is on disk (it is shared by every bot, see C3, and survives
    restarts): [close] returns with the file still present.  Second, a
    session whose [quit()] raises once: after [close] it still holds its
    driver, is still authenticated and its file is still there; a second
    [close] retries [quit()], which completes, and changes the state. *)
Lemma C9_close_counterexample :
  (mem (qr_code_path qr_bot) (w_files qr_world) = true /\
   mem (qr_code_path qr_bot) (w_files (snd (snd (close (qr_bot, qr_world))))) = true) /\
  (let '(_, (b1, w1)) := close (retry_bot, qr_world) in
   driver b1 = Some (mkDriver 7 []) /\ is_authenticated b1 = true /\
   mem (qr_code_path b1) (w_files w1) = true /\
   let '(_, (b2, w2)) := close (b1, w1) in
   driver b2 = None /\ is_authenticated b2 = false /\ w_quits w2 = [7%nat] /\
   mem (qr_code_path b2) (w_files w2) = false).
Proof. vm_compute. repeat split. Qed.

(** C9 (amended). [close] does nothing when the session has no driver.
    When [quit()] completes, afterwards the driver is absent, its quit is
    recorded, [is_authenticated] is false and no scan-code file is left,
    and a second [close] changes nothing.  When [quit()] raises, the error
    is logged and the session keeps its driver (whose next [quit()] is the
    next outcome) and its flag; the world is unchanged. *)
Theorem C9_close_spec (b : Bot) (w : World) :
  let '(_, (b', w')) := close (b, w) in
  match driver b with
  | None => b' = b /\ w' = w
  | Some d =>
      match drv_quit_raises d with
      | true :: rest => b' = set_driver b (Some (mkDriver (drv_id d) rest)) /\ w' = w
      | _ => driver b' = None /\ is_authenticated b' = false /\
             mem (qr_code_path b) (w_files w') = false /\ In (drv_id d) (w_quits w')
      end
  end /\
  (driver b' = None -> close (b', w') = (tt, (b', w'))).
Proof.
  close_unfold.
  destruct (driver b) as [[i q]|] eqn:Hd; simpl.
  - destruct q as [|[|] q]; simpl.
    2:{ split; [split; reflexivity|]. discriminate. }
    all: split; [|reflexivity].
    all: split; [reflexivity|]; split; [reflexivity|]; split.
    all: try (destruct (mem _ _); simpl; apply in_or_app; right; left; reflexivity).
    all: destruct (mem (qr_code_path b) (w_files w)) eqn:Hm; simpl; [|exact Hm].
    all: unfold mem, remove; apply not_true_is_false; intros Hx;
         apply existsb_exists in Hx as [y [Hy Heq]];
         apply filter_In in Hy as [_ Hn]; rewrite Heq in Hn; discriminate.
  - split; [split; reflexivity|]. intros _. rewrite Hd. reflexivity.
Qed.

(** ** Concrete worlds *)

Definition empty_world (br : Browser) : World :=
  mkWorld [] (fun _ => None) 0 [] [] 100 br 0 [] [].

(** Chrome is found and the profile is already logged in, but the chat of
    the target number never renders a compose box. *)
Definition chat_fails_browser : Browser :=
  mkBrowser true [true] false false false false false false [].

(** Everything succeeds. *)
Definition happy_browser : Browser :=
  mkBrowser true [true] false false false true true true [].

(** ** C1: the send route and a failed send *)

(** C1 (code_bug). When the bot's [send_message] fails (here: the chat does
    not load), it returns the non-empty dict [{'success': False, ...}],
    which is truthy, so the route answers 200 with [success: true]. *)
Lemma C1_failed_send_answers_200 :
  (let (o, w1) := get_or_create_bot true "d" false (empty_world chat_fails_browser) in
   option_map (fun r => fst r)
     (run_obj o (send_message "9876543210" (Some "hi") None) w1)) =
    Some (err_dict "Failed to load chat interface") /\
  fst (send_message_route true "d" (Some "9876543210") (Some "hi")
         (empty_world chat_fails_browser)) =
    RJson 200 [("success", PyBool true); ("device_id", PyStr "d");
               ("phone", PyStr "9876543210"); ("timestamp", PyInt 100)].
Proof. split; vm_compute; reflexivity. Qed.

(** ** C3: per-device paths *)

(** C3 (code_bug). [get_or_create_bot] does not pass the device id to the
    constructor, so the bots of devices "a" and "b" both get the scan-code
    path "qr_codes/default_qr.png" and both run Chrome on the user-data
    directory "sessions/default/user_data"; only the unused [profile_dir]
    attribute is per device. *)
Lemma C3_devices_share_qr_path :
  let (oa, wa) := get_or_create_bot true "a" false (empty_world idle_browser) in
  let (ob, wb) := get_or_create_bot true "b" false wa in
  oa <> ob /\
  option_map qr_code_path (w_heap wb oa) = Some "qr_codes/default_qr.png" /\
  option_map qr_code_path (w_heap wb ob) = Some "qr_codes/default_qr.png" /\
  option_map chrome_user_data_dir (w_heap wb oa) = Some "sessions/default/user_data" /\
  option_map chrome_user_data_dir (w_heap wb ob) = Some "sessions/default/user_data" /\
  option_map profile_dir (w_heap wb oa) = Some "sessions/a" /\
  option_map profile_dir (w_heap wb ob) = Some "sessions/b".
Proof.
  vm_compute. split; [discriminate|]. repeat split.
Qed.

(** ** A registered session with a live driver *)

Definition live_bot : Bot :=
  mkBot "default" true (Some (mkDriver 7 [])) "sessions/default"
        "qr_codes/default_qr.png" true "https://web.whatsapp.com/" "sessions/d" 0.

Definition live_world : World :=
  mkWorld [("d", 0%nat)] (fun o => if Nat.eqb o 0 then Some live_bot else None)
          1 [] [] 100 idle_browser 8 [] [].

(** ** C7: the QR route *)

(** C7 (code_bug). [get_qr_code_path] returns a [str], and the route calls
    [qr_path.exists()] on it: when the scan-code file exists the route
    answers 500 with an [AttributeError] text instead of the PNG.  With only
    the per-device file "qr_codes/d_qr.png" on disk it answers 404. *)
Lemma C7_qr_route_on_existing_file :
  fst (get_qr_code_route true "d"
         (set_files (empty_world idle_browser) ["qr_codes/default_qr.png"])) =
    RJson 500 [("success", PyBool false);
               ("error", PyStr "'str' object has no attribute 'exists'")] /\
  fst (get_qr_code_route true "d"
         (set_files (empty_world idle_browser) ["qr_codes/d_qr.png"])) =
    RJson 404 [("success", PyBool false); ("error", PyStr "QR code not available")].
Proof. split; vm_compute; reflexivity. Qed.

(** ** What the steps of [send_message] preserve *)

(** The relation between the state before and after a step of the send
    flow: [last_activity], [qr_code_path] and the text outcome of the page
    are kept, the only file that may appear is the scan-code file, and the
    only directory that may appear is Chrome's user-data directory. *)
Definition R_step (s s' : Bot * World) : Prop :=
  last_activity (fst s') = last_activity (fst s) /\
  qr_code_path (fst s') = qr_code_path (fst s) /\
  br_text_ok (w_page (snd s')) = br_text_ok (w_page (snd s)) /\
  (forall x, mem x (w_files (snd s')) = true ->
             mem x (w_files (snd s)) = true \/ x = qr_code_path (fst s)) /\
  session_dir (fst s') = session_dir (fst s) /\
  (forall x, mem x (w_dirs (snd s')) = true ->
             mem x (w_dirs (snd s)) = true \/ x = chrome_user_data_dir (fst s)).

Lemma R_step_refl (s : Bot * World) : R_step s s.
Proof. repeat split; auto. Qed.

Lemma R_step_trans (s1 s2 s3 : Bot * World) : R_step s1 s2 -> R_step s2 s3 -> R_step s1 s3.
Proof.
  intros (H1 & H2 & H3 & H4 & H5 & H6) (G1 & G2 & G3 & G4 & G5 & G6).
  split; [congruence|]. split; [congruence|]. split; [congruence|].
  split; [intros x Hx; destruct (G4 x Hx) as [Hy | Hy]; [apply H4; exact Hy|]; right; congruence|].
  split; [congruence|].
  intros x Hx. destruct (G6 x Hx) as [Hy | Hy]; [apply H6; exact Hy|]. right.
  unfold chrome_user_data_dir in *. congruence.
Qed.

Definition respects {A} (m : M A) : Prop := forall s, R_step s (snd (m s)).

Lemma respects_ret {A} (a : A) : respects (ret a).
Proof. intros s. apply R_step_refl. Qed.

Lemma respects_bind {A B} (m : M A) (k : A -> M B) :
  respects m -> (forall a, respects (k a)) -> respects (bind m k).
Proof.
  intros Hm Hk s. unfold bind.
  specialize (Hm s). destruct (m s) as [a s']. simpl in Hm.
  eapply R_step_trans; [exact Hm | apply Hk].
Qed.

Lemma respects_get_self : respects get_self.
Proof. intros s. apply R_step_refl. Qed.

Lemma respects_get_world : respects get_world.
Proof. intros s. apply R_step_refl. Qed.

Lemma mem_add (x y : string) (l : list string) :
  mem x (add y l) = true -> mem x l = true \/ x = y.
Proof.
  unfold add. destruct (mem y l); [auto|].
  unfold mem. rewrite existsb_app. simpl. intros H.
  apply orb_true_iff in H as [H | H]; [auto|].
  right. rewrite orb_false_r in H. apply String.eqb_eq in H. exact H.
Qed.

Ltac step_tac :=
  unfold R_step; simpl; repeat split; auto.

Lemma respects_log_event (e : Event) : respects (log_event e).
Proof. intros [b w]. step_tac. Qed.

Lemma respects_check_authentication : respects check_authentication.
Proof.
  intros [b w]. unfold check_authentication, bind, get_world, put_world, get_self, put_self, ret.
  simpl. unfold br_pop_auth.
  destruct (br_auth_answers (w_page w)) as [|[|] rest]; step_tac.
Qed.

Lemma respects_setup_driver : respects setup_driver.
Proof.
  intros [b w]. unfold setup_driver, bind, get_world, put_world, get_self, put_self, ret.
  simpl. destruct (br_chrome_found (w_page w)); step_tac.
  intros x Hx. unfold makedirs in Hx. apply mem_add in Hx. exact Hx.
Qed.

Lemma respects_wait_for_qr_code : respects wait_for_qr_code.
Proof. intros [b w]. step_tac. Qed.

Lemma respects_wait_for_authentication : respects wait_for_authentication.
Proof.
  intros [b w]. unfold wait_for_authentication, bind, get_world, get_self, put_self, ret.
  simpl. destruct (br_scanned (w_page w)); step_tac.
Qed.

Lemma respects_save_qr_code : respects save_qr_code.
Proof.
  intros [b w]. unfold save_qr_code, bind, get_world, put_world, get_self, ret.
  simpl. destruct (br_qr_capturable (w_page w)); [destruct (mem _ (w_dirs w))|]; step_tac.
  intros x Hx. apply mem_add in Hx. exact Hx.
Qed.

Create HintDb send_steps.
#[export] Hint Resolve respects_ret respects_get_self respects_get_world
  respects_log_event respects_check_authentication respects_setup_driver
  respects_wait_for_qr_code respects_wait_for_authentication respects_save_qr_code
  : send_steps.

Ltac respects_tac :=
  repeat first
    [ progress (auto with send_steps)
    | apply respects_bind; [ | intros ?]
    | match goal with
      | |- respects (match ?x with _ => _ end) => destruct x
      end
    | progress cbv zeta ].

Lemma respects_initialize_session : respects initialize_session.
Proof. unfold initialize_session. respects_tac. Qed.

#[export] Hint Resolve respects_initialize_session : send_steps.

Lemma respects_ensure_ready : respects ensure_ready.
Proof. unfold ensure_ready. respects_tac. Qed.

Lemma respects_deliver (p : string) (m media : option string) : respects (deliver p m media).
Proof. unfold deliver, send_media, send_text_message. respects_tac. Qed.

#[export] Hint Resolve respects_ensure_ready respects_deliver : send_steps.

(** ** C2: last_activity *)

Definition fresh_bot : Bot :=
  mkBot "default" true None "sessions/default" "qr_codes/default_qr.png" false
        "https://web.whatsapp.com/" "sessions/d" 0.

(** C2 counterexample: a send that succeeds while the clock reads 100 leaves
    [last_activity] at its construction value 0, not above it. *)
Lemma C2_successful_send_keeps_last_activity :
  let '(r, (b', w')) := send_message "9876543210" (Some "hi") None
                          (fresh_bot, empty_world happy_browser) in
  py_dict_get r "success" = PyBool true /\
  w_clock w' > last_activity fresh_bot /\
  ~ (last_activity b' > last_activity fresh_bot).
Proof. vm_compute. split; [reflexivity|]. split; [reflexivity|]. discriminate. Qed.

(** C2 (amended). [send_message] never assigns [last_activity], whatever its
    outcome: the value after the call is the value before it (set by the
    constructor). *)
Theorem C2_send_message_keeps_last_activity
    (phone : string) (message media : option string) (b : Bot) (w : World) :
  last_activity (fst (snd (send_message phone message media (b, w)))) = last_activity b.
Proof.
  assert (H : respects (send_message phone message media))
    by (unfold send_message; respects_tac).
  exact (proj1 (H (b, w))).
Qed.

(** ** C8: media and text *)

Definition not_media (e : Event) : bool :=
  match e with EvSendMedia _ => false | _ => true end.

(** The world with the media uploads removed from the action log. *)
Definition erase_media (w : World) : World := set_log w (filter not_media (w_log w)).

Lemma path_exists_set_log (p : string) (w : World) l :
  path_exists p (set_log w l) = path_exists p w.
Proof. reflexivity. Qed.

Ltac deliver_unfold :=
  unfold deliver, send_media, send_text_message, log_event,
         bind, get_world, put_world, ret; simpl; rewrite ?path_exists_set_log.

Lemma deliver_media_irrelevant (phone p : string) (m : option string) (b : Bot) (w : World) :
  let '(r1, (b1, w1)) := deliver phone m (Some p) (b, w) in
  let '(r2, (b2, w2)) := deliver phone m None (b, w) in
  r1 = r2 /\ b1 = b2 /\ erase_media w1 = erase_media w2.
Proof.
  deliver_unfold.
  destruct (br_chat_loads (w_page w)); simpl; [|auto].
  destruct (negb (String.eqb p "") && path_exists p w)%bool; simpl;
  (destruct m as [m|]; simpl; [destruct (negb (String.eqb m "")); simpl;
     [destruct (br_text_ok (w_page w)) |] |]);
  unfold erase_media, set_log; simpl; (split; [reflexivity|]); (split; [reflexivity|]);
  repeat rewrite filter_app; simpl; rewrite ?app_nil_r; reflexivity.
Qed.

Lemma deliver_missing_media (phone p : string) (m : option string) (b : Bot) (w : World) :
  path_exists p w = false -> deliver phone m (Some p) (b, w) = deliver phone m None (b, w).
Proof.
  intros Hp. deliver_unfold. rewrite Hp, andb_false_r. reflexivity.
Qed.

Lemma deliver_text_failure (phone : string) (m media : option string) (b : Bot) (w : World) :
  br_text_ok (w_page w) = false -> py_opt_truthy m = true ->
  py_truthy (py_dict_get (fst (deliver phone m media (b, w))) "success") = false.
Proof.
  intros Ht Hm. destruct m as [m|]; [|discriminate]. simpl in Hm.
  deliver_unfold. rewrite Hm.
  destruct (br_chat_loads (w_page w)); simpl; [|reflexivity].
  destruct media as [p|]; simpl; rewrite ?path_exists_set_log;
  [destruct (negb (String.eqb p "") && path_exists p w)%bool|]; simpl;
  rewrite Ht; reflexivity.
Qed.

Lemma ensure_ready_early (s : Bot * World) (r : PyDict) :
  fst (ensure_ready s) = Some r -> py_truthy (py_dict_get r "success") = false.
Proof.
  destruct s as [b w].
  unfold ensure_ready, bind, get_self, ret; simpl.
  destruct (driver b).
  - simpl. destruct (is_authenticated b); simpl; [discriminate|].
    destruct (check_authentication (b, w)) as [[|] [b1 w1]]; simpl; [discriminate|].
    destruct (initialize_session (b1, w1)) as [r1 s1]; simpl.
    destruct (py_truthy (py_dict_get r1 "success")) eqn:E; simpl; [discriminate|].
    intros H; injection H as <-; exact E.
  - destruct (initialize_session (b, w)) as [r0 [b0 w0]]; simpl.
    destruct (py_truthy (py_dict_get r0 "success")) eqn:E0; simpl.
    + destruct (is_authenticated b0); simpl; [discriminate|].
      destruct (check_authentication (b0, w0)) as [[|] [b1 w1]]; simpl; [discriminate|].
      destruct (initialize_session (b1, w1)) as [r1 s1]; simpl.
      destruct (py_truthy (py_dict_get r1 "success")) eqn:E; simpl; [discriminate|].
      intros H; injection H as <-; exact E.
    + intros H; injection H as <-; exact E0.
Qed.

(** C8. In [send_message] the media step never decides the outcome: with a
    media path the result and the final session are those of the same call
    without media, and the actions on the page differ only by the media
    upload, so the text is attempted whether the media upload succeeded,
    failed or was skipped.  When the media path does not exist (neither a
    file nor a directory, and not the scan-code file or Chrome's user-data
    directory, the only paths the flow itself may create), the call is
    exactly the call without media.  When the text send fails, the
    overall result is a failure, with or without media. *)
Theorem C8_media_then_text (phone p : string) (m : option string) (b : Bot) (w : World) :
  (let '(r1, (b1, w1)) := send_message phone m (Some p) (b, w) in
   let '(r2, (b2, w2)) := send_message phone m None (b, w) in
   r1 = r2 /\ b1 = b2 /\ erase_media w1 = erase_media w2) /\
  (path_exists p w = false -> p <> qr_code_path b -> p <> chrome_user_data_dir b ->
   send_message phone m (Some p) (b, w) = send_message phone m None (b, w)) /\
  (forall media, br_text_ok (w_page w) = false -> py_opt_truthy m = true ->
   py_truthy (py_dict_get (fst (send_message phone m media (b, w))) "success") = false).
Proof.
  pose proof (respects_ensure_ready (b, w)) as Hr.
  pose proof (ensure_ready_early (b, w)) as He.
  unfold send_message, bind.
  destruct (ensure_ready (b, w)) as [g [b' w']] eqn:Eg. simpl in Hr, He.
  destruct Hr as (_ & Hqr & Htxt & Hfiles & Hsd & Hdirs). simpl in Hqr, Htxt, Hfiles, Hsd, Hdirs.
  split; [|split].
  - destruct g as [r|]; simpl; [auto|]. apply deliver_media_irrelevant.
  - intros Hp Hq Hu. destruct g as [r|]; [reflexivity|].
    apply deliver_missing_media.
    unfold path_exists in *. apply orb_false_iff in Hp as [Hpf Hpd].
    apply orb_false_iff. split.
    + destruct (mem p (w_files w')) eqn:E; [|reflexivity].
      destruct (Hfiles p E) as [H | H]; [congruence | contradiction].
    + destruct (mem p (w_dirs w')) eqn:E; [|reflexivity].
      destruct (Hdirs p E) as [H | H]; [congruence | contradiction].
  - intros media Ht Hm. destruct g as [r|]; simpl.
    + apply He. reflexivity.
    + apply deliver_text_failure; [congruence | exact Hm].
Qed.

Lemma C8_media_then_text_witness :
  send_message "9876543210" (Some "hi") (Some "photo.png")
    (fresh_bot, empty_world happy_browser) =
  send_message "9876543210" (Some "hi") None (fresh_bot, empty_world happy_browser).
Proof.
  apply (proj1 (proj2 (C8_media_then_text "9876543210" "photo.png" (Some "hi")
                         fresh_bot (empty_world happy_browser)))).
  - reflexivity.
  - discriminate.
  - discriminate.
Defined.

(** ** C5: the idle sweep *)

(** Whether the sweep closes and removes an entry: the object exists and has
    been idle strictly longer than the timeout. *)
Definition evicted (now timeout_seconds : Z) (h : nat -> option Bot) (e : string * nat) : bool :=
  match h (snd e) with
  | Some b => now - last_activity b >? timeout_seconds
  | None => false
  end.

Lemma dict_del_middle (acc l : list (string * nat)) (d : string) (o : nat) :
  ~ In d (map fst acc) -> dict_del (acc ++ (d, o) :: l)%list d = (acc ++ l)%list.
Proof.
  induction acc as [|[k v] acc IH]; simpl; intros Hn.
  - rewrite String.eqb_refl. reflexivity.
  - destruct (String.eqb d k) eqn:E.
    + apply String.eqb_eq in E. subst. exfalso. apply Hn. left. reflexivity.
    + f_equal. apply IH. intros H. apply Hn. right. exact H.
Qed.

Lemma run_close (o : nat) (b : Bot) (w : World) :
  w_heap w o = Some b ->
  exists w1, run_obj o close w = Some (tt, w1) /\
    w_reg w1 = w_reg w /\ w_heap w1 = heap_set (w_heap w) o (close_self b).
Proof.
  intros Hb. unfold run_obj. rewrite Hb.
  pose proof (close_self_eq b w) as Hs. pose proof (close_world_reg_heap b w) as [Hr Hh].
  destruct (close (b, w)) as [[] [b' w']]. simpl in Hs, Hr, Hh. subst b'.
  exists (set_heap w' (heap_set (w_heap w') o (close_self b))).
  split; [reflexivity|]. simpl. rewrite Hr, Hh. split; reflexivity.
Qed.

Lemma run_close_world (o : nat) (b : Bot) (w w1 : World) :
  w_heap w o = Some b -> run_obj o close w = Some (tt, w1) ->
  w_next_oid w1 = w_next_oid w /\ w_clock w1 = w_clock w /\ w_dirs w1 = w_dirs w /\
  w_quits w1 = (w_quits w ++ quit_of b)%list.
Proof.
  intros Hb. unfold run_obj. rewrite Hb.
  pose proof (close_world_other b w) as Ho.
  destruct (close (b, w)) as [[] [b' w']]. intros H. injection H as <-. exact Ho.
Qed.

(** ** Finalization *)

Lemma registered_In (o : nat) (w : World) :
  registered o w = true <-> In o (map snd (w_reg w)).
Proof.
  unfold registered. rewrite existsb_exists. split.
  - intros [x [Hin Hx]]. apply Nat.eqb_eq in Hx. subst. exact Hin.
  - intros Hin. exists o. split; [exact Hin | apply Nat.eqb_refl].
Qed.

Lemma finalize_spec (o : nat) (w : World) :
  let w' := finalize o w in
  w_reg w' = w_reg w /\ w_next_oid w' = w_next_oid w /\ w_clock w' = w_clock w /\
  w_heap w' o = None /\ (forall o', o' <> o -> w_heap w' o' = w_heap w o') /\
  w_quits w' = (w_quits w ++ match w_heap w o with Some b => quit_of b | None => [] end)%list.
Proof.
  unfold finalize. destruct (w_heap w o) as [b|] eqn:Hb.
  - destruct (run_close o b w Hb) as [w1 [Hrun [Hr Hh]]].
    destruct (run_close_world o b w w1 Hb Hrun) as (Hn & Hc & _ & Hq).
    rewrite Hrun. simpl. rewrite Nat.eqb_refl.
    split; [exact Hr|]. split; [exact Hn|]. split; [exact Hc|]. split; [reflexivity|].
    split; [|exact Hq].
    intros o' Hne. apply Nat.eqb_neq in Hne. rewrite Hne, Hh. unfold heap_set. rewrite Hne.
    reflexivity.
  - assert (Hrun : run_obj o close w = None) by (unfold run_obj; rewrite Hb; reflexivity).
    rewrite Hrun, app_nil_r. repeat split; auto.
Qed.

Lemma release_frame (o : nat) (w : World) :
  let w' := release o w in
  w_reg w' = w_reg w /\ w_next_oid w' = w_next_oid w /\ w_clock w' = w_clock w /\
  (forall o', o' <> o -> w_heap w' o' = w_heap w o') /\
  (forall x, In x (w_quits w) -> In x (w_quits w')).
Proof.
  unfold release. destruct (registered o w); [repeat split; auto|].
  destruct (finalize_spec o w) as (H1 & H2 & H3 & _ & H5 & H6).
  split; [exact H1|]. split; [exact H2|]. split; [exact H3|]. split; [exact H5|].
  intros x Hx. rewrite H6. apply in_or_app. left. exact Hx.
Qed.

(** The references of a list of entries dropped one after the other: the
    registry does not change; an object that is not registered is freed,
    and the quits of its finalizer are recorded; nothing else changes. *)
Lemma release_fold (l : list (string * nat)) : forall w,
  let w' := fold_left (fun w e => release (snd e) w) l w in
  w_reg w' = w_reg w /\ w_next_oid w' = w_next_oid w /\ w_clock w' = w_clock w /\
  (forall o, ~ In o (map snd l) \/ registered o w = true -> w_heap w' o = w_heap w o) /\
  (forall x, In x (w_quits w) -> In x (w_quits w')) /\
  (NoDup (map snd l) -> forall o, In o (map snd l) -> registered o w = false ->
     w_heap w' o = None /\
     (forall b, w_heap w o = Some b -> forall x, In x (quit_of b) -> In x (w_quits w'))).
Proof.
  induction l as [|[d o0] l IH]; intros w; simpl.
  { repeat split; auto; intros; contradiction. }
  destruct (release_frame o0 w) as (F1 & F2 & F3 & F4 & F5).
  destruct (IH (release o0 w)) as (I1 & I2 & I3 & I4 & I5 & I6).
  assert (Hreg : forall o, registered o (release o0 w) = registered o w)
    by (intros o; unfold registered; rewrite F1; reflexivity).
  split; [congruence|]. split; [congruence|]. split; [congruence|]. split; [|split].
  - intros o Ho. rewrite I4.
    + destruct (Nat.eq_dec o o0) as [-> | Hne]; [|apply F4; exact Hne].
      destruct Ho as [Ho | Ho]; [exfalso; apply Ho; left; reflexivity|].
      unfold release. rewrite Ho. reflexivity.
    + rewrite Hreg. destruct Ho as [Ho | Ho]; [left | right; exact Ho].
      intros Hin. apply Ho. right. exact Hin.
  - intros x Hx. apply I5, F5, Hx.
  - intros Hnd o [Heq | Hin] Hr; inversion Hnd as [|? ? Hn0 Hnd']; subst.
    + assert (Hrel : release o w = finalize o w) by (unfold release; rewrite Hr; reflexivity).
      destruct (finalize_spec o w) as (_ & _ & _ & G4 & _ & G6).
      rewrite Hrel in *. split.
      * rewrite I4; [exact G4|]. left. exact Hn0.
      * intros b Hb x Hx. apply I5. rewrite G6, Hb. apply in_or_app. right. exact Hx.
    + assert (Hne : o <> o0) by (intros ->; exact (Hn0 Hin)).
      destruct (I6 Hnd' o Hin) as [J1 J2]; [rewrite Hreg; exact Hr|].
      split; [exact J1|]. intros b Hb. apply J2. rewrite F4 by exact Hne. exact Hb.
Qed.

Lemma release_order_perm {A} (l : list A) : Permutation (release_order l) l.
Proof.
  unfold release_order. destruct (rev l) as [|last earlier] eqn:E.
  - assert (Hl : l = []) by (rewrite <- (rev_involutive l), E; reflexivity).
    subst. constructor.
  - apply Permutation_trans with (last :: earlier).
    + apply Permutation_sym, Permutation_cons_append.
    + rewrite <- E. apply Permutation_sym, Permutation_rev.
Qed.

Lemma NoDup_snd_unique (l : list (string * nat)) (d d' : string) (o : nat) :
  NoDup (map snd l) -> In (d, o) l -> In (d', o) l -> d = d'.
Proof.
  induction l as [|[k v] l IH]; simpl; [tauto|]. intros Hnd H1 H2.
  inversion Hnd as [|? ? Hn Hnd']; subst.
  destruct H1 as [H1 | H1], H2 as [H2 | H2].
  - congruence.
  - injection H1 as -> ->. exfalso. apply Hn. apply (in_map snd) in H2. exact H2.
  - injection H2 as -> ->. exfalso. apply Hn. apply (in_map snd) in H1. exact H1.
  - apply IH; assumption.
Qed.

Section Sweep.

Variables (now timeout_seconds : Z) (h0 : nat -> option Bot).

Let step (w : World) (e : string * nat) : World :=
  try_log (cleanup_entry now timeout_seconds e w).

(** The quits of the loop: one [close] per evicted entry. *)
Let loop_quits (e : string * nat) : list nat :=
  if evicted now timeout_seconds h0 e
  then match h0 (snd e) with Some b => quit_of b | None => [] end
  else [].

Lemma sweep_invariant (l acc : list (string * nat)) (w : World) :
  NoDup (map fst (acc ++ l)%list) -> NoDup (map snd l) ->
  w_reg w = (acc ++ l)%list ->
  (forall d o, In (d, o) l -> w_heap w o = h0 o) ->
  let w' := fold_left step l w in
  w_reg w' = (acc ++ filter (fun e => negb (evicted now timeout_seconds h0 e)) l)%list /\
  (forall d o b, In (d, o) l -> h0 o = Some b ->
     now - last_activity b > timeout_seconds -> w_heap w' o = Some (close_self b)) /\
  (forall o, ~ (exists d, In (d, o) l /\ evicted now timeout_seconds h0 (d, o) = true) ->
     w_heap w' o = w_heap w o) /\
  w_quits w' = (w_quits w ++ flat_map loop_quits l)%list /\
  w_next_oid w' = w_next_oid w.
Proof.
  revert acc w.
  induction l as [|[d o] l IH]; intros acc w Hk Ho Hreg Hh; simpl.
  { rewrite ?app_nil_r in *. split; [exact Hreg|]. split; [intros; contradiction|auto]. }
  assert (Hho : w_heap w o = h0 o) by (apply (Hh d); left; reflexivity).
  inversion Ho as [|? ? Hno Ho']; subst.
  destruct (h0 o) as [b|] eqn:Eb.
  - destruct (now - last_activity b >? timeout_seconds) eqn:Eidle; simpl.
    + (* the entry is evicted *)
      assert (Hev : evicted now timeout_seconds h0 (d, o) = true)
        by (unfold evicted; simpl; rewrite Eb; exact Eidle).
      assert (Hlq : loop_quits (d, o) = quit_of b)
        by (unfold loop_quits; rewrite Hev; simpl; rewrite Eb; reflexivity).
      rewrite Hev, Hlq. simpl.
      destruct (run_close o b w) as [w1 [Hrun [Hr1 Hh1]]]; [congruence|].
      destruct (run_close_world o b w w1 ltac:(congruence) Hrun) as (Hn1 & _ & _ & Hq1).
      assert (Hs : step w (d, o) = set_reg w1 (dict_del (w_reg w1) d))
        by (unfold step, cleanup_entry; simpl; rewrite Hho, Eidle, Hrun; reflexivity).
      rewrite Hs.
      assert (Hd : ~ In d (map fst acc)).
      { rewrite map_app in Hk. simpl in Hk. apply NoDup_remove_2 in Hk.
        intros H. apply Hk. apply in_or_app. left. exact H. }
      destruct (IH acc (set_reg w1 (dict_del (w_reg w1) d))) as (IH1 & IH2 & IH3 & IH4 & IH5).
      * rewrite map_app in *. simpl in Hk. apply NoDup_remove_1 in Hk. exact Hk.
      * exact Ho'.
      * simpl. rewrite Hr1, Hreg. apply dict_del_middle. exact Hd.
      * intros d' o' Hin. simpl. rewrite Hh1. unfold heap_set.
        destruct (Nat.eqb o' o) eqn:E.
        { apply Nat.eqb_eq in E. subst. exfalso. apply Hno.
          apply (in_map snd) in Hin. exact Hin. }
        apply (Hh d'). right. exact Hin.
      * split; [exact IH1|]. split; [|split; [|split]].
        -- intros d' o' b' [Heq | Hin] Hb' Hlt.
           ++ injection Heq as <- <-. rewrite Eb in Hb'. injection Hb' as <-.
              rewrite IH3.
              ** simpl. rewrite Hh1. unfold heap_set. rewrite Nat.eqb_refl. reflexivity.
              ** intros [d'' [Hin _]]. apply Hno. apply (in_map snd) in Hin. exact Hin.
           ++ exact (IH2 d' o' b' Hin Hb' Hlt).
        -- intros o' Hnot. rewrite IH3.
           ++ simpl. rewrite Hh1. unfold heap_set.
              destruct (Nat.eqb o' o) eqn:E; [|reflexivity].
              apply Nat.eqb_eq in E. subst. exfalso. apply Hnot.
              exists d. split; [left; reflexivity|]. unfold evicted. simpl.
              rewrite Eb. exact Eidle.
           ++ intros [d'' [Hin Hev']]. apply Hnot. exists d''. split; [right; exact Hin | exact Hev'].
        -- rewrite IH4. simpl. rewrite Hq1, app_assoc. reflexivity.
        -- rewrite IH5. simpl. exact Hn1.
    + (* idle for at most the timeout: kept *)
      assert (Hev : evicted now timeout_seconds h0 (d, o) = false)
        by (unfold evicted; simpl; rewrite Eb; exact Eidle).
      assert (Hlq : loop_quits (d, o) = [])
        by (unfold loop_quits; rewrite Hev; reflexivity).
      rewrite Hev, Hlq. simpl.
      assert (Hs : step w (d, o) = w)
        by (unfold step, cleanup_entry; simpl; rewrite Hho, Eidle; reflexivity).
      rewrite Hs.
      destruct (IH (acc ++ [(d, o)])%list w) as (IH1 & IH2 & IH3 & IH4 & IH5).
      * rewrite <- app_assoc. exact Hk.
      * exact Ho'.
      * rewrite <- app_assoc. exact Hreg.
      * intros d' o' Hin. apply (Hh d'). right. exact Hin.
      * split; [rewrite IH1, <- app_assoc; reflexivity|]. split; [|split; [|split]].
        -- intros d' o' b' [Heq | Hin] Hb' Hlt.
           ++ injection Heq as <- <-. rewrite Eb in Hb'. injection Hb' as <-.
              rewrite Z.gtb_ltb in Eidle. apply Z.ltb_ge in Eidle. lia.
           ++ exact (IH2 d' o' b' Hin Hb' Hlt).
        -- intros o' Hnot. apply IH3.
           intros [d'' [Hin Hev']]. apply Hnot. exists d''. split; [right; exact Hin | exact Hev'].
        -- exact IH4.
        -- exact IH5.
  - (* the object is missing: the AttributeError is caught and logged *)
    assert (Hev : evicted now timeout_seconds h0 (d, o) = false)
      by (unfold evicted; simpl; rewrite Eb; reflexivity).
    assert (Hlq : loop_quits (d, o) = [])
      by (unfold loop_quits; rewrite Hev; reflexivity).
    rewrite Hev, Hlq. simpl.
    assert (Hs : step w (d, o) = w)
      by (unfold step, cleanup_entry; simpl; rewrite Hho; reflexivity).
    rewrite Hs.
    destruct (IH (acc ++ [(d, o)])%list w) as (IH1 & IH2 & IH3 & IH4 & IH5).
    + rewrite <- app_assoc. exact Hk.
    + exact Ho'.
    + rewrite <- app_assoc. exact Hreg.
    + intros d' o' Hin. apply (Hh d'). right. exact Hin.
    + split; [rewrite IH1, <- app_assoc; reflexivity|]. split; [|split; [|split]].
      * intros d' o' b' [Heq | Hin] Hb' Hlt.
        -- injection Heq as <- <-. congruence.
        -- exact (IH2 d' o' b' Hin Hb' Hlt).
      * intros o' Hnot. apply IH3.
        intros [d'' [Hin Hev']]. apply Hnot. exists d''. split; [right; exact Hin | exact Hev'].
      * exact IH4.
      * exact IH5.
Qed.

Lemma sweep_quits (l : list (string * nat)) (d : string) (o : nat) (b : Bot) :
  In (d, o) l -> h0 o = Some b -> evicted now timeout_seconds h0 (d, o) = true ->
  forall x, In x (quit_of b) -> In x (flat_map loop_quits l).
Proof.
  intros Hin Hb Hev x Hx. apply in_flat_map. exists (d, o). split; [exact Hin|].
  unfold loop_quits. rewrite Hev. simpl. rewrite Hb. exact Hx.
Qed.

End Sweep.

(** The whole of [cleanup_old_sessions]: the loop, then the references of
    the snapshot dropped in [release_order]. *)
Lemma cleanup_facts (T : Z) (w : World) :
  NoDup (map fst (w_reg w)) -> NoDup (map snd (w_reg w)) ->
  let ev := evicted (w_clock w) (T * 60) (w_heap w) in
  let w' := cleanup_old_sessions T w in
  w_reg w' = filter (fun e => negb (ev e)) (w_reg w) /\
  w_next_oid w' = w_next_oid w /\
  (forall d o b, In (d, o) (w_reg w) -> w_heap w o = Some b ->
     w_clock w - last_activity b > T * 60 ->
     w_heap w' o = None /\
     (forall x, In x (quit_of b ++ quit_of (close_self b)) -> In x (w_quits w'))) /\
  (forall o, ~ (exists d, In (d, o) (w_reg w) /\ ev (d, o) = true) ->
     w_heap w' o = w_heap w o).
Proof.
  intros Hk Ho. cbv zeta. unfold cleanup_old_sessions.
  destruct (sweep_invariant (w_clock w) (T * 60) (w_heap w) (w_reg w) [] w
              Hk Ho eq_refl (fun _ _ _ => eq_refl)) as (H1 & H2 & H3 & H4 & H5).
  set (w1 := fold_left _ (w_reg w) w) in *.
  destruct (release_fold (release_order (w_reg w)) w1) as (R1 & R2 & R3 & R4 & R5 & R6).
  set (w2 := fold_left _ (release_order (w_reg w)) w1) in *.
  pose proof (Permutation_map snd (release_order_perm (w_reg w))) as Hp.
  assert (Hin_l : forall o, In o (map snd (release_order (w_reg w))) <-> In o (map snd (w_reg w)))
    by (intros o; split; apply Permutation_in; [exact Hp | apply Permutation_sym; exact Hp]).
  simpl in H1.
  split; [rewrite R1; exact H1|]. split; [rewrite R2; exact H5|]. split.
  - intros d o b Hin Hb Hlt.
    assert (Hev : evicted (w_clock w) (T * 60) (w_heap w) (d, o) = true)
      by (unfold evicted; simpl; rewrite Hb; apply Z.gtb_lt; lia).
    assert (Hnr : registered o w1 = false).
    { apply not_true_is_false. rewrite registered_In, H1. intros Hx.
      apply in_map_iff in Hx as [[d' o'] [Heq Hx]]. simpl in Heq. subst o'.
      apply filter_In in Hx as [Hx Hkeep].
      rewrite (NoDup_snd_unique (w_reg w) d' d o Ho Hx Hin), Hev in Hkeep. discriminate. }
    destruct (R6 (Permutation_NoDup (Permutation_sym Hp) Ho) o
                (proj2 (Hin_l o) (in_map snd _ _ Hin)) Hnr) as [J1 J2].
    split; [exact J1|]. intros x Hx. apply in_app_or in Hx as [Hx | Hx].
    + apply R5. rewrite H4. apply in_or_app. right.
      exact (sweep_quits (w_clock w) (T * 60) (w_heap w) (w_reg w) d o b Hin Hb Hev x Hx).
    + apply (J2 (close_self b)); [exact (H2 d o b Hin Hb Hlt) | exact Hx].
  - intros o Hnot. rewrite R4.
    + apply H3. exact Hnot.
    + destruct (in_dec Nat.eq_dec o (map snd (w_reg w))) as [Hin | Hin].
      * right. apply registered_In. rewrite H1.
        apply in_map_iff in Hin as [[d o'] [Heq Hin]]. simpl in Heq. subst o'.
        apply in_map_iff. exists (d, o). split; [reflexivity|]. apply filter_In.
        split; [exact Hin|]. destruct (evicted _ _ _ (d, o)) eqn:E; [|reflexivity].
        exfalso. apply Hnot. exists d. split; assumption.
      * left. rewrite Hin_l. exact Hin.
Qed.

Definition idle_world (clock : Z) : World :=
  mkWorld [("d", 0%nat)] (fun o => if Nat.eqb o 0 then Some live_bot else None)
          1 [] [] clock idle_browser 8 [] [].

(** C5 counterexample: with a 30-minute timeout, a session whose idle
    duration is exactly 1800 s is neither closed nor removed. *)
Lemma C5_idle_exactly_timeout_kept :
  w_clock (idle_world 1800) - last_activity live_bot = 30 * 60 /\
  w_reg (cleanup_old_sessions 30 (idle_world 1800)) = [("d", 0%nat)] /\
  w_heap (cleanup_old_sessions 30 (idle_world 1800)) 0%nat = Some live_bot.
Proof. vm_compute. repeat split. Qed.

(** C5 (amended). For a registry with distinct keys and distinct objects,
    [cleanup_old_sessions] with [SESSION_TIMEOUT_MINUTES = T] removes from
    the registry exactly the entries whose object has been idle strictly
    longer than [T * 60] seconds (an entry whose handling raises is kept,
    the error being caught and logged, and the sweep goes on with the
    others).  Each removed object is freed once the loop is over: [close]
    runs on it in the loop and again in its [__del__], so its driver is
    quit unless both [quit()] calls raise.  Every other object is left
    untouched. *)
Theorem C5_cleanup_spec (T : Z) (w : World)
    (Hkeys : NoDup (map fst (w_reg w))) (Hobjs : NoDup (map snd (w_reg w))) :
  let w' := cleanup_old_sessions T w in
  w_reg w' = filter (fun e => negb (evicted (w_clock w) (T * 60) (w_heap w) e)) (w_reg w) /\
  (forall d o b, In (d, o) (w_reg w) -> w_heap w o = Some b ->
     w_clock w - last_activity b > T * 60 ->
     w_heap w' o = None /\
     (forall dv, driver b = Some dv -> firstn 2 (drv_quit_raises dv) <> [true; true] ->
        In (drv_id dv) (w_quits w'))) /\
  (forall o, ~ (exists d, In (d, o) (w_reg w) /\ evicted (w_clock w) (T * 60) (w_heap w) (d, o) = true) ->
     w_heap w' o = w_heap w o).
Proof.
  destruct (cleanup_facts T w Hkeys Hobjs) as (H1 & _ & H3 & H4).
  split; [exact H1|]. split; [|exact H4].
  intros d o b Hin Hb Hlt. destruct (H3 d o b Hin Hb Hlt) as [J1 J2].
  split; [exact J1|]. intros dv Hd H2. apply J2.
  unfold quit_of, close_self. rewrite Hd.
  destruct (drv_quit_raises dv) as [|[|] [|[|] q]]; simpl;
    try (left; reflexivity); try (right; left; reflexivity).
  exfalso. apply H2. reflexivity.
Qed.

(** A registry of four sessions, 30 minutes and one second after time 0:
    "a" and "c" have been idle since time 0, the driver of "c" raising on
    its first [quit()]; the entry "b" raises when it is handled (its object
    is missing); "e" was created at time 1000. *)
Definition sweep_world : World :=
  let bot dr la := mkBot "default" true (Some dr) "sessions/default"
                     "qr_codes/default_qr.png" true "https://web.whatsapp.com/" "sessions/d" la in
  mkWorld [("a", 0%nat); ("b", 1%nat); ("c", 2%nat); ("e", 3%nat)]
          (fun o => match o with
                    | 0%nat => Some (bot (mkDriver 10 []) 0)
                    | 2%nat => Some (bot (mkDriver 11 [true]) 0)
                    | 3%nat => Some (bot (mkDriver 12 []) 1000)
                    | _ => None
                    end)
          4 [] [] 1801 idle_browser 13 [] [].

Lemma C5_cleanup_spec_witness :
  w_reg (cleanup_old_sessions 30 sweep_world) = [("b", 1%nat); ("e", 3%nat)] /\
  w_heap (cleanup_old_sessions 30 sweep_world) 0%nat = None /\
  w_heap (cleanup_old_sessions 30 sweep_world) 2%nat = None /\
  In 10%nat (w_quits (cleanup_old_sessions 30 sweep_world)) /\
  In 11%nat (w_quits (cleanup_old_sessions 30 sweep_world)) /\
  w_heap (cleanup_old_sessions 30 sweep_world) 3%nat = w_heap sweep_world 3%nat.
Proof.
  destruct (C5_cleanup_spec 30 sweep_world
              ltac:(repeat constructor; simpl; intuition discriminate)
              ltac:(repeat constructor; simpl; lia)) as (H1 & H2 & H3).
  pose proof (H2 "a" 0%nat _ (or_introl eq_refl) eq_refl
                ltac:(vm_compute; reflexivity)) as [Ha1 Ha2].
  pose proof (H2 "c" 2%nat _ (or_intror (or_intror (or_introl eq_refl))) eq_refl
                ltac:(vm_compute; reflexivity)) as [Hc1 Hc2].
  split; [rewrite H1; vm_compute; reflexivity|].
  split; [exact Ha1|]. split; [exact Hc1|].
  split; [exact (Ha2 (mkDriver 10 []) eq_refl ltac:(discriminate))|].
  split; [exact (Hc2 (mkDriver 11 [true]) eq_refl ltac:(discriminate))|].
  apply H3. intros [d [Hin Hev]]. simpl in Hin.
  destruct Hin as [Hin | [Hin | [Hin | [Hin | []]]]]; try discriminate Hin.
  injection Hin as <-. vm_compute in Hev. discriminate Hev.
Defined.

(** * Further properties of the code *)

(** ** The API-key decorator *)

Lemma py_opt_eqb_eq (a b : option string) : py_opt_eqb a b = true <-> a = b.
Proof.
  destruct a as [x|], b as [y|]; simpl; split; intros H; try congruence.
  - apply String.eqb_eq in H. congruence.
  - injection H as ->. apply String.eqb_refl.
Qed.

(** When [API_KEY] is unset or empty, every decorated route runs as is.
    When it is set, the route body runs exactly when the [X-API-KEY] header
    equals it; otherwise the answer is 401 and nothing else happens. *)
Theorem X_require_api_key (API_KEY header : option string)
    (f : World -> Response * World) (w : World) :
  (py_opt_truthy API_KEY = false -> require_api_key API_KEY header f w = f w) /\
  (py_opt_truthy API_KEY = true -> header = API_KEY -> require_api_key API_KEY header f w = f w) /\
  (py_opt_truthy API_KEY = true -> header <> API_KEY ->
   require_api_key API_KEY header f w =
   (RJson 401 [("success", PyBool false); ("error", PyStr "Invalid or missing API key")], w)).
Proof.
  unfold require_api_key. split; [|split].
  - intros H. rewrite H. reflexivity.
  - intros H ->. rewrite H. simpl.
    assert (E : py_opt_eqb API_KEY API_KEY = true) by (apply py_opt_eqb_eq; reflexivity).
    rewrite E. reflexivity.
  - intros H Hne. rewrite H.
    destruct (py_opt_eqb header API_KEY) eqn:E.
    + apply py_opt_eqb_eq in E. contradiction.
    + rewrite orb_true_r. reflexivity.
Qed.

Lemma X_require_api_key_witness :
  require_api_key (Some "k") (Some "bad") (fun w => (health_check w, w)) (empty_world idle_browser) =
  (RJson 401 [("success", PyBool false); ("error", PyStr "Invalid or missing API key")],
   empty_world idle_browser).
Proof.
  apply (proj2 (proj2 (X_require_api_key (Some "k") (Some "bad") (fun w => (health_check w, w))
                         (empty_world idle_browser)))); [reflexivity | discriminate].
Defined.

(** ** The send route's validation *)

(** When [phone] or [message] is missing or empty, the send route answers
    400 and leaves the state untouched: no bot is created or registered. *)
Theorem X_send_route_missing_field (HEADLESS : bool) (dev : string)
    (phone message : option string) (w : World) :
  py_opt_truthy phone = false \/ py_opt_truthy message = false ->
  send_message_route HEADLESS dev phone message w =
  (RJson 400 [("success", PyBool false);
              ("error", PyStr "'phone' and 'message' fields are required")], w).
Proof.
  intros H. unfold send_message_route.
  destruct phone as [p|], message as [m|]; try reflexivity.
  destruct H as [H | H]; rewrite H; [reflexivity|]. rewrite andb_false_r. reflexivity.
Qed.

Lemma X_send_route_missing_field_witness :
  send_message_route true "default" (Some "9876543210") None (empty_world idle_browser) =
  (RJson 400 [("success", PyBool false);
              ("error", PyStr "'phone' and 'message' fields are required")],
   empty_world idle_browser).
Proof.
  apply X_send_route_missing_field. right. reflexivity.
Defined.

(** ** The initialize route on an authenticated session *)

(** When the device's registered bot is already authenticated, the
    initialize route answers 200 "Session already authenticated" with
    [qr_required: false] and changes nothing: no driver is launched and no
    page is loaded. *)
Theorem X_initialize_route_already_authenticated (HEADLESS : bool) (dev : string)
    (w : World) (o : nat) (b : Bot) :
  dict_get (w_reg w) dev = Some o -> w_heap w o = Some b -> is_authenticated b = true ->
  initialize_session_route HEADLESS dev w =
  (RJson 200 [("success", PyBool true); ("message", PyStr "Session already authenticated");
              ("device_id", PyStr dev); ("qr_required", PyBool false);
              ("timestamp", PyInt (w_clock w))], w).
Proof.
  intros Hr Hh Ha. unfold initialize_session_route, get_or_create_bot. simpl.
  rewrite Hr, Hh, Ha. reflexivity.
Qed.

Lemma X_initialize_route_already_authenticated_witness :
  initialize_session_route true "d" live_world =
  (RJson 200 [("success", PyBool true); ("message", PyStr "Session already authenticated");
              ("device_id", PyStr "d"); ("qr_required", PyBool false);
              ("timestamp", PyInt 100)], live_world).
Proof.
  apply (X_initialize_route_already_authenticated true "d" live_world 0 live_bot);
    reflexivity.
Defined.

(** ** Typing a multi-line message *)

Fixpoint type_lines (ls : list string) : list Key :=
  match ls with
  | [] => []
  | [l] => [KText l]
  | l :: rest => KText l :: KShiftEnter :: type_lines rest
  end.

Lemma enumerate_keys (l : list string) (k N : nat) :
  (k + length l)%nat = N ->
  flat_map (fun '(i, line) =>
              KText line :: (if Nat.ltb i (N - 1) then [KShiftEnter] else []))
           (combine (seq k (length l)) l) = type_lines l.
Proof.
  revert k. induction l as [|x l IH]; intros k HN; [reflexivity|].
  simpl. rewrite (IH (S k)) by (simpl in HN; lia).
  destruct l as [|y l].
  - simpl in HN. replace (Nat.ltb k (N - 1)) with false by (symmetry; apply Nat.ltb_ge; lia).
    reflexivity.
  - simpl in HN. replace (Nat.ltb k (N - 1)) with true by (symmetry; apply Nat.ltb_lt; lia).
    reflexivity.
Qed.

Lemma py_split_nonempty (c : ascii) (s : string) : py_split c s <> [].
Proof.
  destruct s as [|x s]; simpl; [discriminate|].
  destruct (Ascii.eqb x c); [discriminate|].
  destruct (py_split c s); discriminate.
Qed.

Lemma type_lines_cons_head (h h' : string) (t : list string) :
  exists rest, type_lines (h :: t) = KText h :: rest /\ type_lines (h' :: t) = KText h' :: rest.
Proof. destruct t; eexists; split; reflexivity. Qed.

Lemma composed_split (s : string) :
  composed_text (type_lines (py_split newline s)) = s.
Proof.
  induction s as [|c s IH]; [reflexivity|].
  simpl. destruct (Ascii.eqb c newline) eqn:E.
  - apply Ascii.eqb_eq in E. subst c.
    destruct (py_split newline s) as [|h t] eqn:Hs; [exfalso; exact (py_split_nonempty _ _ Hs)|].
    change (composed_text (KText "" :: KShiftEnter :: type_lines (h :: t)) = String newline s).
    cbn [composed_text String.append]. rewrite IH. reflexivity.
  - destruct (py_split newline s) as [|h t] eqn:Hs; [exfalso; exact (py_split_nonempty _ _ Hs)|].
    destruct (type_lines_cons_head (String c h) h t) as [rest [H1 H2]].
    rewrite H1. rewrite H2 in IH. cbn [composed_text String.append] in *. rewrite IH. reflexivity.
Qed.

Lemma type_lines_no_enter (l : list string) : ~ In KEnter (type_lines l).
Proof.
  induction l as [|x [|y l] IH]; simpl; [tauto|intuition discriminate|].
  intros [H | [H | H]]; try discriminate. apply IH. exact H.
Qed.

(** [_send_text_message] types the lines of the message separated by
    SHIFT+ENTER and ends with a single ENTER: the text left in the compose box
    before the final ENTER is exactly the message, line breaks included. *)
Theorem X_message_keys_roundtrip (message : string) :
  exists typed, message_keys message = (typed ++ [KEnter])%list /\
    ~ In KEnter typed /\ composed_text typed = message.
Proof.
  exists (type_lines (py_split newline message)).
  unfold message_keys. rewrite enumerate_keys by reflexivity.
  split; [reflexivity|]. split; [apply type_lines_no_enter | apply composed_split].
Qed.

(** ** The registry *)

Lemma dict_get_In (d : list (string * nat)) (k : string) (v : nat) :
  dict_get d k = Some v -> In (k, v) d.
Proof.
  induction d as [|[k' v'] d IH]; simpl; [discriminate|].
  destruct (String.eqb k k') eqn:E; intros H.
  - apply String.eqb_eq in E. injection H as <-. subst. left. reflexivity.
  - right. apply IH. exact H.
Qed.

Lemma dict_get_None (d : list (string * nat)) (k : string) :
  dict_get d k = None <-> ~ In k (map fst d).
Proof.
  induction d as [|[k' v'] d IH]; simpl; [tauto|].
  destruct (String.eqb k k') eqn:E.
  - apply String.eqb_eq in E. subst. split; [discriminate|]. intros H. exfalso. apply H. left. reflexivity.
  - apply String.eqb_neq in E. rewrite IH. split.
    + intros H [H1 | H1]; [congruence | exact (H H1)].
    + intros H H1. apply H. right. exact H1.
Qed.

Lemma dict_set_absent (d : list (string * nat)) (k : string) (v : nat) :
  dict_get d k = None -> dict_set d k v = (d ++ [(k, v)])%list.
Proof.
  induction d as [|[k' v'] d IH]; simpl; [reflexivity|].
  destruct (String.eqb k k'); [discriminate|]. intros H. rewrite IH by exact H. reflexivity.
Qed.

Lemma dict_set_present_length (d : list (string * nat)) (k : string) (v o : nat) :
  dict_get d k = Some o -> length (dict_set d k v) = length d.
Proof.
  induction d as [|[k' v'] d IH]; simpl; [discriminate|].
  destruct (String.eqb k k'); [reflexivity|]. intros H. simpl. rewrite IH by exact H. reflexivity.
Qed.

Lemma dict_del_present_length (d : list (string * nat)) (k : string) (o : nat) :
  dict_get d k = Some o -> S (length (dict_del d k)) = length d.
Proof.
  induction d as [|[k' v'] d IH]; simpl; [discriminate|].
  destruct (String.eqb k k'); [reflexivity|]. intros H. simpl. rewrite IH by exact H. reflexivity.
Qed.

Lemma In_dict_set (d : list (string * nat)) (k : string) (v : nat) (e : string * nat) :
  In e (dict_set d k v) -> e = (k, v) \/ In e d.
Proof.
  induction d as [|[k' v'] d IH]; simpl.
  - intros [H | []]. left. symmetry. exact H.
  - destruct (String.eqb k k'); simpl; intros [H | H].
    + left. symmetry. exact H.
    + right. right. exact H.
    + right. left. exact H.
    + destruct (IH H); auto.
Qed.

Lemma In_dict_del (d : list (string * nat)) (k : string) (e : string * nat) :
  In e (dict_del d k) -> In e d.
Proof.
  induction d as [|[k' v'] d IH]; simpl; [auto|].
  destruct (String.eqb k k'); simpl; [auto|]. intros [H | H]; auto.
Qed.

Lemma NoDup_fst_dict_set (d : list (string * nat)) (k : string) (v : nat) :
  NoDup (map fst d) -> NoDup (map fst (dict_set d k v)).
Proof.
  induction d as [|[k' v'] d IH]; simpl; intros Hd.
  - constructor; [simpl; tauto | constructor].
  - inversion Hd as [|? ? Hn Hd']; subst.
    destruct (String.eqb k k') eqn:E; simpl.
    + apply String.eqb_eq in E. subst. constructor; assumption.
    + constructor; [|apply IH; exact Hd'].
      intros Hin. apply in_map_iff in Hin as [[k'' v''] [Hk Hin]]. simpl in Hk. subst k''.
      destruct (In_dict_set d k v _ Hin) as [He | He].
      * injection He as <- _. rewrite String.eqb_refl in E. discriminate.
      * apply Hn. apply (in_map fst) in He. exact He.
Qed.

Lemma NoDup_snd_dict_set (d : list (string * nat)) (k : string) (v : nat) :
  NoDup (map snd d) -> ~ In v (map snd d) -> NoDup (map snd (dict_set d k v)).
Proof.
  induction d as [|[k' v'] d IH]; simpl; intros Hd Hv.
  - constructor; [simpl; tauto | constructor].
  - inversion Hd as [|? ? Hn Hd']; subst.
    destruct (String.eqb k k'); simpl.
    + constructor; [|exact Hd']. intros H. apply Hv. right. exact H.
    + constructor; [|apply IH; [exact Hd' | intros H; apply Hv; right; exact H]].
      intros Hin. apply in_map_iff in Hin as [[k'' v''] [Hk Hin]]. simpl in Hk. subst v''.
      destruct (In_dict_set d k v _ Hin) as [He | He].
      * injection He as _ <-. apply Hv. left. reflexivity.
      * apply Hn. apply (in_map snd) in He. exact He.
Qed.

Lemma NoDup_map_dict_del {B} (f : string * nat -> B) (d : list (string * nat)) (k : string) :
  NoDup (map f d) -> NoDup (map f (dict_del d k)).
Proof.
  induction d as [|[k' v'] d IH]; simpl; intros Hd; [exact Hd|].
  inversion Hd as [|? ? Hn Hd']; subst.
  destruct (String.eqb k k'); [exact Hd'|]. simpl. constructor; [|apply IH; exact Hd'].
  intros Hin. apply in_map_iff in Hin as [e [He Hin]]. apply Hn.
  rewrite <- He. apply in_map. apply (In_dict_del d k). exact Hin.
Qed.

Lemma dict_get_del (d : list (string * nat)) (k : string) :
  NoDup (map fst d) -> dict_get (dict_del d k) k = None.
Proof.
  intros Hd. apply dict_get_None. intros Hin.
  induction d as [|[k' v'] d IH]; simpl in *; [exact Hin|].
  inversion Hd as [|? ? Hn Hd']; subst.
  destruct (String.eqb k k') eqn:E.
  - apply String.eqb_eq in E. subst. exact (Hn Hin).
  - simpl in Hin. destruct Hin as [Hin | Hin].
    + subst. rewrite String.eqb_refl in E. discriminate.
    + exact (IH Hd' Hin).
Qed.

(** What [get_or_create_bot] does when it builds a bot: the new object gets
    the next identity and is registered under [dev]; the object it replaces,
    if any, loses the registry's reference. *)
Lemma get_or_create_create (HEADLESS : bool) (dev : string) (force_new : bool) (w : World) :
  force_new = true \/ dict_get (w_reg w) dev = None ->
  let '(o, w') := get_or_create_bot HEADLESS dev force_new w in
  exists w3,
    w' = match dict_get (w_reg w) dev with Some old => release old w3 | None => w3 end /\
    o = w_next_oid w /\ w_reg w3 = dict_set (w_reg w) dev o /\
    w_heap w3 = heap_set (w_heap w) o
                  (fst (WhatsAppBot_init "default" HEADLESS (Some (session_path dev)) w)) /\
    w_next_oid w3 = S o /\ w_clock w3 = w_clock w /\ w_files w3 = w_files w /\
    w_quits w3 = w_quits w /\
    w_dirs w3 = w_dirs (snd (WhatsAppBot_init "default" HEADLESS (Some (session_path dev)) w)).
Proof.
  intros H. unfold get_or_create_bot.
  assert (E : match (negb force_new, dict_get (w_reg w) dev) with
              | (true, Some _) => false | _ => true end = true)
    by (destruct H as [-> | ->]; [destruct (dict_get _ _)|destruct force_new]; reflexivity).
  destruct (negb force_new), (dict_get (w_reg w) dev); try discriminate;
    simpl; eexists; (split; [reflexivity|]); repeat split; reflexivity.
Qed.

Lemma get_or_create_new (HEADLESS : bool) (dev : string) (force_new : bool) (w : World) :
  dict_get (w_reg w) dev = None ->
  let '(o, w') := get_or_create_bot HEADLESS dev force_new w in
  o = w_next_oid w /\ w_reg w' = dict_set (w_reg w) dev o /\
  w_heap w' = heap_set (w_heap w) o
                (fst (WhatsAppBot_init "default" HEADLESS (Some (session_path dev)) w)) /\
  w_next_oid w' = S o /\ w_clock w' = w_clock w /\ w_files w' = w_files w /\
  w_quits w' = w_quits w /\
  w_dirs w' = w_dirs (snd (WhatsAppBot_init "default" HEADLESS (Some (session_path dev)) w)).
Proof.
  intros Hg. pose proof (get_or_create_create HEADLESS dev force_new w (or_intror Hg)) as Hc.
  destruct (get_or_create_bot HEADLESS dev force_new w) as [o w'].
  destruct Hc as [w3 [-> H]]. rewrite Hg. exact H.
Qed.

Lemma get_or_create_old (HEADLESS : bool) (dev : string) (w : World) (o : nat) :
  dict_get (w_reg w) dev = Some o -> get_or_create_bot HEADLESS dev false w = (o, w).
Proof. intros H. unfold get_or_create_bot. simpl. rewrite H. reflexivity. Qed.

(** [health_check]'s count after [get_or_create_bot]: a device not yet
    registered adds one session; a registered one, even with
    [force_new=True], adds none (the old object is replaced in place). *)
Theorem X_get_or_create_active_sessions (HEADLESS : bool) (dev : string)
    (force_new : bool) (w : World) :
  let w' := snd (get_or_create_bot HEADLESS dev force_new w) in
  health_check w' =
  RJson 200 [("status", PyStr "ok"); ("timestamp", PyInt (w_clock w));
             ("active_sessions",
              PyInt (Z.of_nat (length (w_reg w)) +
                     match dict_get (w_reg w) dev with Some _ => 0 | None => 1 end))].
Proof.
  destruct (dict_get (w_reg w) dev) as [o|] eqn:E.
  - destruct force_new.
    + pose proof (get_or_create_create HEADLESS dev true w (or_introl eq_refl)) as Hn.
      destruct (get_or_create_bot HEADLESS dev true w) as [o' w'].
      destruct Hn as [w3 [Hw (_ & Hr & _ & _ & Hc & _)]]. rewrite E in Hw. subst w'.
      destruct (release_frame o w3) as (Hr' & _ & Hc' & _).
      simpl. unfold health_check.
      rewrite Hr', Hc', Hr, Hc, (dict_set_present_length _ _ _ o) by exact E.
      rewrite Z.add_0_r. reflexivity.
    + rewrite (get_or_create_old HEADLESS dev w o E). simpl. unfold health_check.
      rewrite Z.add_0_r. reflexivity.
  - pose proof (get_or_create_new HEADLESS dev force_new w E) as Hn.
    destruct (get_or_create_bot HEADLESS dev force_new w) as [o' w'].
    destruct Hn as (_ & Hr & _ & _ & Hc & _). simpl. unfold health_check.
    rewrite Hr, Hc, dict_set_absent by exact E.
    rewrite length_app. simpl. rewrite Nat2Z.inj_add. reflexivity.
Qed.

(** Well-formed registry: distinct device ids, distinct objects, each one
    allocated and alive on the heap. *)
Definition wf_registry (w : World) : Prop :=
  NoDup (map fst (w_reg w)) /\ NoDup (map snd (w_reg w)) /\
  (forall d o, In (d, o) (w_reg w) -> (o < w_next_oid w)%nat /\ w_heap w o <> None).

Lemma run_close_next_oid (o : nat) (w w1 : World) :
  run_obj o close w = Some (tt, w1) -> w_next_oid w1 = w_next_oid w.
Proof.
  unfold run_obj. destruct (w_heap w o) as [b|] eqn:Hb; [|discriminate].
  intros Hrun. apply (run_close_world o b w w1 Hb). unfold run_obj. rewrite Hb. exact Hrun.
Qed.

Lemma wf_release (o : nat) (w : World) : wf_registry w -> wf_registry (release o w).
Proof.
  intros (Hk & Ho & Hl). destruct (release_frame o w) as (Hr & Hn & _ & Hh & _).
  unfold wf_registry. rewrite Hr, Hn. split; [exact Hk|]. split; [exact Ho|].
  intros d o' Hin. destruct (Hl d o' Hin) as [Hlt Hd]. split; [exact Hlt|].
  destruct (Nat.eq_dec o' o) as [-> | Hne]; [|rewrite Hh by exact Hne; exact Hd].
  unfold release. replace (registered o w) with true; [exact Hd|].
  symmetry. apply registered_In. apply (in_map snd) in Hin. exact Hin.
Qed.

Lemma dict_del_unregistered (d : list (string * nat)) (k : string) (v : nat) :
  NoDup (map snd d) -> dict_get d k = Some v -> ~ In v (map snd (dict_del d k)).
Proof.
  induction d as [|[k' v'] d IH]; simpl; [discriminate|].
  intros Hd. inversion Hd as [|? ? Hn Hd']; subst.
  destruct (String.eqb k k') eqn:E.
  - intros H. injection H as <-. exact Hn.
  - intros Hg [Hv | Hin].
    + simpl in Hv. subst v'. apply Hn. exact (in_map snd _ _ (dict_get_In d k v Hg)).
    + exact (IH Hd' Hg Hin).
Qed.

(** [delete_session]'s effect, for a registered device whose object is
    alive: [close] runs, the entry is deleted, and when no other entry
    holds the object it is finalized, its [__del__] running [close] a
    second time. *)
Lemma delete_session_state (dev : string) (w : World) (o : nat) (b : Bot) :
  dict_get (w_reg w) dev = Some o -> w_heap w o = Some b ->
  fst (delete_session dev w) =
    RJson 200 [("success", PyBool true); ("message", PyStr ("Session " ++ dev ++ " deleted"))] /\
  let w' := snd (delete_session dev w) in
  w_reg w' = dict_del (w_reg w) dev /\
  w_next_oid w' = w_next_oid w /\
  (forall o', o' <> o -> w_heap w' o' = w_heap w o') /\
  (NoDup (map snd (w_reg w)) ->
   w_heap w' o = None /\
   w_quits w' = (w_quits w ++ quit_of b ++ quit_of (close_self b))%list).
Proof.
  intros Hg Hb. destruct (run_close o b w Hb) as [w1 [Hrun [Hr Hh]]].
  destruct (run_close_world o b w w1 Hb Hrun) as (Hn & _ & _ & Hq).
  unfold delete_session. simpl. rewrite Hg, Hrun. simpl.
  set (w2 := set_reg w1 (dict_del (w_reg w1) dev)).
  destruct (release_frame o w2) as (R1 & R2 & _ & R4 & _).
  split; [reflexivity|]. cbv zeta.
  split; [rewrite R1; simpl; rewrite Hr; reflexivity|].
  split; [rewrite R2; exact Hn|]. split.
  - intros o' Hne. rewrite R4 by exact Hne. simpl. rewrite Hh. unfold heap_set.
    apply Nat.eqb_neq in Hne. rewrite Hne. reflexivity.
  - intros Hnd.
    assert (Hnr : registered o w2 = false).
    { apply not_true_is_false. rewrite registered_In. simpl. rewrite Hr.
      exact (dict_del_unregistered _ _ _ Hnd Hg). }
    unfold release. rewrite Hnr.
    destruct (finalize_spec o w2) as (_ & _ & _ & F4 & _ & F6).
    split; [exact F4|]. rewrite F6. simpl. rewrite Hh, Hq. unfold heap_set.
    rewrite Nat.eqb_refl, app_assoc. reflexivity.
Qed.

Lemma wf_get_or_create (HEADLESS : bool) (dev : string) (force_new : bool) (w : World) :
  wf_registry w -> wf_registry (snd (get_or_create_bot HEADLESS dev force_new w)).
Proof.
  intros Hw.
  destruct (negb force_new && match dict_get (w_reg w) dev with Some _ => true | None => false end)%bool
    eqn:F.
  - apply andb_true_iff in F as [F Hs]. apply negb_true_iff in F. subst.
    destruct (dict_get (w_reg w) dev) as [o|] eqn:E; [|discriminate].
    rewrite (get_or_create_old HEADLESS dev w o E). exact Hw.
  - assert (Hc : force_new = true \/ dict_get (w_reg w) dev = None).
    { destruct force_new; [left; reflexivity|right].
      destruct (dict_get (w_reg w) dev); [discriminate | reflexivity]. }
    pose proof (get_or_create_create HEADLESS dev force_new w Hc) as Hn.
    destruct (get_or_create_bot HEADLESS dev force_new w) as [o' w'].
    destruct Hn as [w3 [Hw' (-> & Hr & Hh & Hn & _)]]. simpl.
    assert (H3 : wf_registry w3).
    { destruct Hw as (Hk & Ho & Hl).
      unfold wf_registry. rewrite Hr, Hh, Hn.
      split; [apply NoDup_fst_dict_set; exact Hk|]. split.
      - apply NoDup_snd_dict_set; [exact Ho|]. intros Hin.
        apply in_map_iff in Hin as [[d o] [Heq Hin]]. simpl in Heq. subst o.
        destruct (Hl d _ Hin) as [Hlt _]. lia.
      - intros d o Hin. destruct (In_dict_set _ _ _ _ Hin) as [He | He].
        + injection He as -> ->. split; [lia|]. unfold heap_set. rewrite Nat.eqb_refl. discriminate.
        + destruct (Hl d o He) as [Hlt Hd]. split; [lia|]. unfold heap_set.
          destruct (Nat.eqb o (w_next_oid w)) eqn:Eo; [apply Nat.eqb_eq in Eo; lia | exact Hd]. }
    subst w'. destruct (dict_get (w_reg w) dev); [apply wf_release|]; exact H3.
Qed.

Lemma wf_delete_session (dev : string) (w : World) :
  wf_registry w -> wf_registry (snd (delete_session dev w)).
Proof.
  intros Hw. destruct (dict_get (w_reg w) dev) as [o|] eqn:E.
  - destruct Hw as (Hk & Ho & Hl).
    destruct (w_heap w o) as [b|] eqn:Hb.
    2:{ exfalso. apply (proj2 (Hl dev o (dict_get_In _ _ _ E))). exact Hb. }
    destruct (delete_session_state dev w o b E Hb) as (_ & Hr & Hn & Hh & _).
    unfold wf_registry. rewrite Hr, Hn.
    split; [apply NoDup_map_dict_del; exact Hk|]. split; [apply NoDup_map_dict_del; exact Ho|].
    intros d o' Hin. pose proof (In_dict_del _ _ _ Hin) as Hin'.
    destruct (Hl d o' Hin') as [Hlt Hd].
    split; [exact Hlt|]. rewrite Hh; [exact Hd|]. intros ->.
    apply (dict_del_unregistered _ _ _ Ho E). apply (in_map snd) in Hin. exact Hin.
  - unfold delete_session. simpl. rewrite E. exact Hw.
Qed.

Lemma cleanup_step_next_oid (now T : Z) (e : string * nat) (w : World) :
  w_next_oid (try_log (cleanup_entry now T e w)) = w_next_oid w.
Proof.
  destruct e as [d o]. unfold cleanup_entry.
  destruct (w_heap w o) as [b|] eqn:Hb; [|reflexivity].
  destruct (now - last_activity b >? T); [|reflexivity].
  destruct (run_obj o close w) as [[[] w1]|] eqn:Hrun; [|reflexivity].
  simpl. exact (run_close_next_oid o w w1 Hrun).
Qed.

Lemma cleanup_next_oid (T : Z) (w : World) :
  w_next_oid (cleanup_old_sessions T w) = w_next_oid w.
Proof.
  unfold cleanup_old_sessions.
  assert (G : forall l w0, w_next_oid (fold_left (fun w1 e =>
              try_log (cleanup_entry (w_clock w) (T * 60) e w1)) l w0) = w_next_oid w0).
  { induction l as [|e l IH]; intros w0; simpl; [reflexivity|].
    rewrite IH. apply cleanup_step_next_oid. }
  destruct (release_fold (release_order (w_reg w))
              (fold_left (fun w1 e => try_log (cleanup_entry (w_clock w) (T * 60) e w1))
                         (w_reg w) w)) as (_ & R2 & _).
  rewrite R2. apply G.
Qed.

Lemma NoDup_map_filter {B} (g : string * nat -> B) (keep : string * nat -> bool)
    (reg : list (string * nat)) :
  NoDup (map g reg) -> NoDup (map g (filter keep reg)).
Proof.
  induction reg as [|e reg IH]; simpl; intros Hd; [exact Hd|].
  inversion Hd as [|? ? Hn Hd']; subst.
  destruct (keep e); simpl; [|apply IH; exact Hd'].
  constructor; [|apply IH; exact Hd'].
  intros Hin. apply in_map_iff in Hin as [e' [He Hin]]. apply filter_In in Hin as [Hin _].
  apply Hn. rewrite <- He. apply in_map. exact Hin.
Qed.

Lemma wf_cleanup (T : Z) (w : World) :
  wf_registry w -> wf_registry (cleanup_old_sessions T w).
Proof.
  intros (Hk & Ho & Hl).
  destruct (cleanup_facts T w Hk Ho) as (Hr & Hn & _ & Hu).
  cbv zeta in Hr, Hn, Hu.
  unfold wf_registry. rewrite Hr, Hn.
  split; [|split].
  - apply NoDup_map_filter. exact Hk.
  - apply NoDup_map_filter. exact Ho.
  - intros d o Hin. apply filter_In in Hin as [Hin Hkeep].
    destruct (Hl d o Hin) as [Hlt Hd]. split; [exact Hlt|].
    rewrite Hu; [exact Hd|]. intros [d' [Hin' Hev]].
    rewrite (NoDup_snd_unique (w_reg w) d' d o Ho Hin' Hin) in Hev.
    rewrite Hev in Hkeep. discriminate.
Qed.

(** [wf_registry] is an invariant of the three operations that change the
    registry: [get_or_create_bot] (with or without [force_new]), the
    [delete_session] route and [cleanup_old_sessions]. *)
Theorem X_wf_registry_preserved (HEADLESS : bool) (dev : string) (force_new : bool)
    (T : Z) (w : World) :
  wf_registry w ->
  wf_registry (snd (get_or_create_bot HEADLESS dev force_new w)) /\
  wf_registry (snd (delete_session dev w)) /\
  wf_registry (cleanup_old_sessions T w).
Proof.
  intros Hw. split; [apply wf_get_or_create; exact Hw|].
  split; [apply wf_delete_session; exact Hw | apply wf_cleanup; exact Hw].
Qed.

Lemma live_world_wf : wf_registry live_world.
Proof.
  split; [repeat constructor; simpl; tauto|]. split; [repeat constructor; simpl; tauto|].
  intros d o [H | []]. injection H as <- <-. simpl. split; [lia | discriminate].
Qed.

Lemma X_wf_registry_preserved_witness :
  wf_registry live_world /\
  wf_registry (snd (get_or_create_bot true "d" true live_world)) /\
  wf_registry (snd (delete_session "d" live_world)) /\
  wf_registry (cleanup_old_sessions 30 live_world).
Proof.
  split; [exact live_world_wf|].
  apply (X_wf_registry_preserved true "d" true 30 live_world live_world_wf).
Defined.

(** On a well-formed registry, [delete_session] always answers 200, the
    device is no longer registered afterwards, and deleting it again
    changes nothing. *)
Theorem X_delete_session_removes (dev : string) (w : World) :
  wf_registry w ->
  let '(r, w') := delete_session dev w in
  r = RJson 200 [("success", PyBool true); ("message", PyStr ("Session " ++ dev ++ " deleted"))] /\
  dict_get (w_reg w') dev = None /\
  delete_session dev w' = (r, w').
Proof.
  intros Hw.
  assert (Hg : fst (delete_session dev w) =
                 RJson 200 [("success", PyBool true);
                            ("message", PyStr ("Session " ++ dev ++ " deleted"))] /\
               dict_get (w_reg (snd (delete_session dev w))) dev = None).
  { destruct (dict_get (w_reg w) dev) as [o|] eqn:E.
    - destruct Hw as (Hk & Ho & Hl).
      destruct (w_heap w o) as [b|] eqn:Hb.
      2:{ exfalso. apply (proj2 (Hl dev o (dict_get_In _ _ _ E))). exact Hb. }
      destruct (delete_session_state dev w o b E Hb) as (Hf & Hr & _).
      split; [exact Hf|]. rewrite Hr. apply dict_get_del. exact Hk.
    - unfold delete_session. simpl. rewrite E. split; [reflexivity | exact E]. }
  destruct (delete_session dev w) as [r w'] eqn:Ed.
  simpl in Hg. destruct Hg as [-> Hg]. split; [reflexivity|]. split; [exact Hg|].
  unfold delete_session. cbv zeta. rewrite Hg. reflexivity.
Qed.

Lemma X_delete_session_removes_witness :
  wf_registry live_world /\
  dict_get (w_reg (snd (delete_session "d" live_world))) "d" = None.
Proof.
  split; [exact live_world_wf|].
  pose proof (X_delete_session_removes "d" live_world live_world_wf) as H.
  destruct (delete_session "d" live_world) as [r w']. exact (proj1 (proj2 H)).
Defined.

(** The quits of two calls to [close], the second on the bot left by the first. *)
Lemma quit_twice (b : Bot) :
  (quit_of b ++ quit_of (close_self b))%list =
  match driver b with
  | Some d => match drv_quit_raises d with true :: true :: _ => [] | _ => [drv_id d] end
  | None => []
  end.
Proof.
  unfold quit_of, close_self.
  destruct (driver b) as [[i q]|] eqn:Ed; simpl; [|rewrite Ed; reflexivity].
  destruct q as [|[|] [|[|] q]]; reflexivity.
Qed.

(** [delete_session] calls [close], then [del bot_instances[dev]] drops the
    registry's reference and the object is finalized: its [__del__] calls
    [close] a second time.  On a well-formed registry the entry is removed,
    the object freed and every other object left untouched; the driver is
    quit once, unless both calls to [quit()] raise, and then never. *)
Theorem X_delete_session_driver (dev : string) (w : World) (o : nat) (b : Bot) :
  wf_registry w -> dict_get (w_reg w) dev = Some o -> w_heap w o = Some b ->
  let w' := snd (delete_session dev w) in
  w_reg w' = dict_del (w_reg w) dev /\
  w_heap w' o = None /\
  (forall o', o' <> o -> w_heap w' o' = w_heap w o') /\
  w_quits w' =
    (w_quits w ++
     match driver b with
     | Some d => match drv_quit_raises d with true :: true :: _ => [] | _ => [drv_id d] end
     | None => []
     end)%list.
Proof.
  intros (_ & Ho & _) Hg Hb. cbv zeta.
  destruct (delete_session_state dev w o b Hg Hb) as (_ & Hr & _ & Hh & Hd).
  destruct (Hd Ho) as [H1 H2].
  split; [exact Hr|]. split; [exact H1|]. split; [exact Hh|].
  rewrite H2, quit_twice. reflexivity.
Qed.

Definition retry_world : World :=
  mkWorld [("d", 0%nat)] (fun o => if Nat.eqb o 0 then Some retry_bot else None)
          1 [] [] 100 idle_browser 8 [] [].

Lemma retry_world_wf : wf_registry retry_world.
Proof.
  split; [repeat constructor; simpl; tauto|]. split; [repeat constructor; simpl; tauto|].
  intros d o [H | []]. injection H as <- <-. simpl. split; [lia | discriminate].
Qed.

(** The driver's first [quit()] raises, its second succeeds: the driver is
    quit by the finalizer. *)
Lemma X_delete_session_driver_witness :
  w_reg (snd (delete_session "d" retry_world)) = [] /\
  w_quits (snd (delete_session "d" retry_world)) = [7%nat].
Proof.
  destruct (X_delete_session_driver "d" retry_world 0 retry_bot retry_world_wf eq_refl eq_refl)
    as (H1 & _ & _ & H4).
  split; [rewrite H1; reflexivity|]. rewrite H4. reflexivity.
Defined.

(** After [DELETE /session/dev], the next request for [dev] gets a new
    object, never the deleted one: identities are not reused. *)
Theorem X_recreate_after_delete (HEADLESS : bool) (dev : string) (w : World) (o : nat) :
  wf_registry w -> dict_get (w_reg w) dev = Some o ->
  let w1 := snd (delete_session dev w) in
  let (o', w2) := get_or_create_bot HEADLESS dev false w1 in
  o' = w_next_oid w /\ o' <> o /\ dict_get (w_reg w2) dev = Some o'.
Proof.
  intros Hw Hg. cbv zeta.
  destruct Hw as (Hk & Ho & Hl).
  destruct (w_heap w o) as [b|] eqn:Hb.
  2:{ exfalso. apply (proj2 (Hl dev o (dict_get_In _ _ _ Hg))). exact Hb. }
  destruct (delete_session_state dev w o b Hg Hb) as (_ & Hr & Hn & _).
  assert (Hg1 : dict_get (w_reg (snd (delete_session dev w))) dev = None)
    by (rewrite Hr; apply dict_get_del; exact Hk).
  pose proof (get_or_create_new HEADLESS dev false _ Hg1) as Hc.
  destruct (get_or_create_bot HEADLESS dev false (snd (delete_session dev w))) as [o' w2].
  destruct Hc as (-> & Hr2 & _).
  destruct (Hl dev o (dict_get_In _ _ _ Hg)) as [Hlt _].
  split; [exact Hn|]. split; [rewrite Hn; lia|].
  rewrite Hr2. apply dict_get_set.
Qed.

Lemma X_recreate_after_delete_witness :
  fst (get_or_create_bot true "d" false (snd (delete_session "d" live_world))) = 1%nat.
Proof.
  pose proof (X_recreate_after_delete true "d" live_world 0 live_world_wf eq_refl) as H.
  cbv zeta in H.
  destruct (get_or_create_bot true "d" false (snd (delete_session "d" live_world))) as [o' w2].
  exact (proj1 H).
Defined.




(** ** Initializing a session *)

Ltac unfold_methods :=
  unfold initialize_session, setup_driver, check_authentication, wait_for_qr_code,
    save_qr_code, wait_for_authentication, log_event, br_pop_auth, ok_dict, err_dict,
    bind, get_world, put_world, get_self, put_self, ret.

(** [initialize_session] never calls [quit()]: a driver the bot already
    holds is overwritten by [_setup_driver], not closed.  Its answer has
    [success] True or False; with True the bot is authenticated and holds
    the freshly launched driver. *)
Lemma initialize_session_facts (b : Bot) (w : World) :
  let '(r, (b', w')) := initialize_session (b, w) in
  w_quits w' = w_quits w /\
  (py_dict_get r "success" = PyBool true \/ py_dict_get r "success" = PyBool false) /\
  (py_dict_get r "success" = PyBool true ->
   is_authenticated b' = true /\
   driver b' = Some (mkDriver (w_next_drv w) (br_quit_raises (w_page w)))) /\
  ((exists q, r = ok_dict q) \/ (exists e, r = err_dict e)).
Proof.
  destruct w as [reg heap noid files dirs clock [cf aa qs qc sc cl mo tt' qr] nd quits log].
  unfold_methods. simpl.
  destruct cf; simpl.
  - destruct aa as [|[|] [|[|] ?]]; simpl; destruct qs, qc, sc; simpl;
      try destruct (mem _ _); simpl; repeat split; try discriminate; eauto.
  - repeat split; try discriminate; eauto.
Qed.

(** [WhatsAppBot.initialize_session] never quits a driver: when the bot
    already holds one, [_setup_driver] overwrites [self.driver] and the old
    Chrome process is left running.  When the answer has [success] True,
    the bot is authenticated and holds the driver just launched. *)
Theorem X_initialize_session_driver (b : Bot) (w : World) :
  let '(r, (b', w')) := initialize_session (b, w) in
  w_quits w' = w_quits w /\
  (py_dict_get r "success" = PyBool true ->
   is_authenticated b' = true /\
   driver b' = Some (mkDriver (w_next_drv w) (br_quit_raises (w_page w)))).
Proof.
  pose proof (initialize_session_facts b w) as H.
  destruct (initialize_session (b, w)) as [r [b' w']].
  destruct H as (Hq & _ & Hs & _). split; [exact Hq | exact Hs].
Qed.

Lemma X_initialize_session_driver_witness :
  driver (fst (snd (initialize_session (live_bot, set_page live_world
            (mkBrowser true [true] false false false false false false []))))) =
  Some (mkDriver 8 []).
Proof.
  pose proof (X_initialize_session_driver live_bot
                (set_page live_world (mkBrowser true [true] false false false false false false []))) as H.
  destruct (initialize_session _) as [r [b' w']] eqn:E.
  vm_compute in E. injection E as <- <- <-.
  apply (proj2 H). reflexivity.
Defined.

(** ** The initialize route's answer *)

(** In a 200 answer of the initialize route, [qr_url] is "/qr/<dev>"
    exactly when [qr_required] is True. *)
Theorem X_initialize_route_qr_url (HEADLESS : bool) (dev : string) (w : World) (body : PyDict) :
  fst (initialize_session_route HEADLESS dev w) = RJson 200 body ->
  (py_dict_lookup body "qr_url" = Some (PyStr ("/qr/" ++ dev)) <->
   py_dict_lookup body "qr_required" = Some (PyBool true)).
Proof.
  unfold initialize_session_route.
  destruct (get_or_create_bot HEADLESS dev false w) as [o w1].
  destruct (w_heap w1 o) as [b|] eqn:Hb; simpl; [|discriminate].
  destruct (is_authenticated b).
  - intros H. injection H as <-. simpl. split; discriminate.
  - unfold run_obj. rewrite Hb.
    pose proof (initialize_session_facts b w1) as F.
    destruct (initialize_session (b, w1)) as [r [b' w2]].
    destruct F as (_ & _ & _ & [[q ->] | [e ->]]); simpl; [|discriminate].
    intros H. injection H as <-. simpl.
    destruct q; simpl; split; intros; try reflexivity; discriminate.
Qed.

Lemma X_initialize_route_qr_url_witness :
  exists body,
    fst (initialize_session_route true "d" (empty_world
           (mkBrowser true [false] true true true false false false []))) = RJson 200 body /\
    (py_dict_lookup body "qr_url" = Some (PyStr ("/qr/" ++ "d")) <->
     py_dict_lookup body "qr_required" = Some (PyBool true)).
Proof.
  eexists. split; [vm_compute; reflexivity|].
  apply (X_initialize_route_qr_url true "d" (empty_world
           (mkBrowser true [false] true true true false false false []))).
  vm_compute. reflexivity.
Defined.

(** ** A successful send *)

Lemma check_authentication_facts (b : Bot) (w : World) :
  let '(a, (b', w')) := check_authentication (b, w) in
  driver b' = driver b /\ (a = true -> is_authenticated b' = true) /\ (a = false -> b' = b).
Proof.
  unfold check_authentication, br_pop_auth, bind, get_world, put_world, get_self, put_self, ret.
  simpl. destruct (br_auth_answers (w_page w)) as [|[|] ?]; simpl;
    repeat split; try discriminate; reflexivity.
Qed.

(** [ensure_ready] lets the send go on only with an authenticated bot that
    holds a driver; its early return carries [success] False. *)
Lemma ensure_ready_facts (b : Bot) (w : World) :
  let '(g, (b', w')) := ensure_ready (b, w) in
  match g with
  | None => is_authenticated b' = true /\ driver b' <> None
  | Some r => py_dict_get r "success" = PyBool false
  end.
Proof.
  unfold ensure_ready, bind, get_self, ret. simpl.
  destruct (driver b) as [d|] eqn:Hd; simpl.
  - destruct (is_authenticated b) eqn:Ha; [split; congruence|].
    pose proof (check_authentication_facts b w) as C.
    destruct (check_authentication (b, w)) as [a [b1 w1]].
    destruct C as (Cd & Ca & _).
    destruct a.
    + split; [apply Ca; reflexivity | congruence].
    + pose proof (initialize_session_facts b1 w1) as F.
      destruct (initialize_session (b1, w1)) as [r [b2 w2]].
      destruct F as (_ & [Hs | Hs] & Ht & _); rewrite Hs; simpl.
      * destruct (Ht Hs) as [Ha2 Hd2]. split; [exact Ha2 | congruence].
      * exact Hs.
  - pose proof (initialize_session_facts b w) as F.
    destruct (initialize_session (b, w)) as [r [b2 w2]].
    destruct F as (_ & [Hs | Hs] & Ht & _); rewrite Hs; simpl.
    + destruct (Ht Hs) as [Ha2 Hd2]. rewrite Ha2. simpl. split; [exact Ha2 | congruence].
    + exact Hs.
Qed.

Lemma deliver_facts (phone m : string) (b : Bot) (w : World) :
  let '(r, (b', w')) := deliver phone (Some m) None (b, w) in
  b' = b /\
  (py_dict_get r "success" = PyBool true ->
   In (EvNavigate ("https://web.whatsapp.com/send?phone=" ++ clean_phone phone)) (w_log w') /\
   (m <> "" -> In (EvSendText m) (w_log w'))).
Proof.
  unfold deliver, send_text_message, log_event, err_dict, bind, get_world, put_world, ret.
  simpl. destruct (br_chat_loads (w_page w)); simpl.
  - destruct (String.eqb m "") eqn:Em; simpl.
    + split; [reflexivity|]. intros _. split.
      * apply in_or_app. right. left. reflexivity.
      * intros Hm. apply String.eqb_eq in Em. contradiction.
    + destruct (br_text_ok (w_page w)); simpl; split; try reflexivity; [|discriminate].
      intros _. split.
      * apply in_or_app. left. apply in_or_app. right. left. reflexivity.
      * intros _. apply in_or_app. right. left. reflexivity.
  - split; [reflexivity | discriminate].
Qed.

(** When [send_message] reports success for a text, the bot is
    authenticated and holds a driver, the chat page of the cleaned number
    was opened, and the text, when not empty, was typed and sent. *)
Theorem X_send_message_success (phone m : string) (b : Bot) (w : World) :
  let '(r, (b', w')) := send_message phone (Some m) None (b, w) in
  py_dict_get r "success" = PyBool true ->
  is_authenticated b' = true /\ driver b' <> None /\
  In (EvNavigate ("https://web.whatsapp.com/send?phone=" ++ clean_phone phone)) (w_log w') /\
  (m <> "" -> In (EvSendText m) (w_log w')).
Proof.
  unfold send_message at 1. unfold bind at 1.
  pose proof (ensure_ready_facts b w) as E.
  destruct (ensure_ready (b, w)) as [g [b1 w1]].
  destruct g as [r|].
  - unfold ret. rewrite E. discriminate.
  - destruct E as [Ha Hd].
    pose proof (deliver_facts phone m b1 w1) as D.
    destruct (deliver phone (Some m) None (b1, w1)) as [r [b2 w2]].
    destruct D as [-> D]. intros Hs. destruct (D Hs) as [Hn Ht].
    split; [exact Ha|]. split; [exact Hd|]. split; [exact Hn | exact Ht].
Qed.

Lemma X_send_message_success_witness :
  In (EvSendText "hi")
     (w_log (snd (snd (send_message "9876543210" (Some "hi") None
                         (fresh_bot, empty_world happy_browser))))).
Proof.
  pose proof (X_send_message_success "9876543210" "hi" fresh_bot (empty_world happy_browser)) as H.
  destruct (send_message "9876543210" (Some "hi") None (fresh_bot, empty_world happy_browser))
    as [r [b' w']] eqn:E.
  vm_compute in E. injection E as <- <- <-.
  apply H; [reflexivity | discriminate].
Defined.

(** ** Locating the executables *)

Lemma which_or_falsy (which : string -> option string) (names : list string) :
  py_opt_truthy (which_or which names) = false <->
  (forall n, In n names -> py_opt_truthy (which n) = false).
Proof.
  induction names as [|n rest IH]; [simpl; split; [intros _ n []|reflexivity]|].
  destruct rest as [|n' rest'].
  - simpl which_or. split; [intros H n0 [<- | []]; exact H | intros H; apply H; left; reflexivity].
  - change (which_or which (n :: n' :: rest'))
      with (if py_opt_truthy (which n) then which n else which_or which (n' :: rest')).
    destruct (py_opt_truthy (which n)) eqn:En.
    + cbv iota. split; [intros H; rewrite En in H; discriminate|].
      intros H. specialize (H n (or_introl eq_refl)). congruence.
    + rewrite IH. split.
      * intros H n0 [<- | Hin]; [exact En | apply H; exact Hin].
      * intros H n0 Hin. apply H. right. exact Hin.
Qed.

Lemma which_or_truthy (which : string -> option string) (names : list string) (p : string) :
  which_or which names = Some p -> py_opt_truthy (Some p) = true ->
  exists n, In n names /\ which n = Some p.
Proof.
  induction names as [|n rest IH]; simpl; [discriminate|].
  destruct rest as [|n' rest'].
  - intros H _. exists n. split; [left; reflexivity | exact H].
  - destruct (py_opt_truthy (which n)).
    + intros H _. exists n. split; [left; reflexivity | exact H].
    + intros H Ht. destruct (IH H Ht) as [n0 [Hin Hw]]. exists n0.
      split; [right; exact Hin | exact Hw].
Qed.

(** [_find_chrome_executable] and [_find_chromedriver_executable] return
    [None] exactly when no well-known path exists and every PATH lookup
    gives nothing usable (None or ""); otherwise what they return is an
    existing well-known path, or, when there is none, a non-empty
    result of a PATH lookup. *)
Theorem X_find_executable (possible_paths names : list string)
    (path_exists : string -> bool) (which : string -> option string) :
  (find_executable possible_paths names path_exists which = None <->
   (forall q, In q possible_paths -> path_exists q = false) /\
   (forall n, In n names -> py_opt_truthy (which n) = false)) /\
  (forall p, find_executable possible_paths names path_exists which = Some p ->
   (In p possible_paths /\ path_exists p = true) \/
   ((forall q, In q possible_paths -> path_exists q = false) /\
    p <> "" /\ exists n, In n names /\ which n = Some p)).
Proof.
  unfold find_executable. split.
  - destruct (find path_exists possible_paths) as [q|] eqn:Ef.
    + split; [discriminate|]. intros [H _].
      apply find_some in Ef as [Hin Hq]. rewrite (H q Hin) in Hq. discriminate.
    + pose proof (find_none _ _ Ef) as Hn.
      rewrite <- which_or_falsy.
      destruct (py_opt_truthy (which_or which names)) eqn:Et.
      * split; [|intros [_ H]; discriminate].
        intros H. destruct (which_or which names); discriminate.
      * split; [intros _; split; [exact Hn | reflexivity] | reflexivity].
  - intros p. destruct (find path_exists possible_paths) as [q|] eqn:Ef.
    + intros H. injection H as <-. left. apply find_some in Ef. exact Ef.
    + pose proof (find_none _ _ Ef) as Hn.
      destruct (py_opt_truthy (which_or which names)) eqn:Et; [|discriminate].
      intros H. right. split; [exact Hn|].
      rewrite H in Et. split.
      * intros ->. discriminate.
      * apply which_or_truthy; assumption.
Qed.

Lemma X_find_executable_witness :
  find_chrome_executable (fun _ => false) (fun _ => Some "") = None.
Proof.
  apply (proj2 (proj1 (X_find_executable chrome_possible_paths chrome_which_names
                         (fun _ => false) (fun _ => Some "")))).
  split; intros; reflexivity.
Defined.

(** ** The authentication polling loop *)

Lemma round_ms_pos : 0 < round_ms.
Proof. unfold round_ms, failed_check_ms. lia. Qed.

(** Each round that fails advances the clock by at least [round_ms]: from
    [end_time - now <= N * round_ms], at most [N] checks are made, and a
    success is a [CFound] preceded only by timed-out checks, among the
    first [N]. *)
Lemma wait_poll_bound (fuel : nat) : forall (N : nat) (now end_time : Z) (checks : list Check),
  end_time - now <= Z.of_nat N * round_ms ->
  let (r, k) := wait_poll fuel now end_time checks in
  (k <= N)%nat /\
  (r = true -> exists pre rest, checks = (pre ++ CFound :: rest)%list /\
     Forall (fun c => exists x, c = CTimeout x) pre /\ (length pre < N)%nat).
Proof.
  pose proof round_ms_pos as HR.
  induction fuel as [|fuel IH]; intros N now e checks HN; simpl.
  { split; [lia | discriminate]. }
  destruct (now <? e) eqn:Hl; [|split; [lia | discriminate]].
  apply Z.ltb_lt in Hl.
  destruct N as [|N]; [lia|].
  assert (HN' : forall x : nat, e - (now + round_ms + Z.of_nat x) <= Z.of_nat N * round_ms)
    by (intros x; rewrite Nat2Z.inj_succ in HN; lia).
  destruct checks as [|[|x|] rest].
  - specialize (IH N (now + round_ms) e [] ltac:(specialize (HN' 0%nat); simpl in HN'; lia)).
    destruct (wait_poll fuel (now + round_ms) e []) as [r k].
    destruct IH as [Hk Hr]. split; [lia|].
    intros Ht. destruct (Hr Ht) as [pre [rest [Hc _]]].
    exfalso. exact (app_cons_not_nil pre rest CFound Hc).
  - split; [lia|]. intros _. exists [], rest. split; [reflexivity|].
    split; [constructor | simpl; lia].
  - specialize (IH N (now + round_ms + Z.of_nat x) e rest (HN' x)).
    destruct (wait_poll fuel (now + round_ms + Z.of_nat x) e rest) as [r k].
    destruct IH as [Hk Hr]. split; [lia|].
    intros Ht. destruct (Hr Ht) as [pre [rest' [Hc [Hf Hlen]]]].
    exists (CTimeout x :: pre), rest'. split; [rewrite Hc; reflexivity|].
    split; [constructor; [exists x; reflexivity | exact Hf] | simpl; lia].
  - split; [lia | discriminate].
Qed.

(** Fuel beyond the bound changes nothing. *)
Lemma wait_poll_fuel (fuel : nat) : forall (N : nat) (now end_time : Z) (checks : list Check),
  end_time - now <= Z.of_nat N * round_ms -> (N <= fuel)%nat ->
  forall m, wait_poll (fuel + m) now end_time checks = wait_poll fuel now end_time checks.
Proof.
  pose proof round_ms_pos as HR.
  induction fuel as [|fuel IH]; intros N now e checks HN Hf m.
  - destruct m as [|m]; [reflexivity|]. simpl.
    assert (Hl : (now <? e) = false) by (apply Z.ltb_ge; destruct N; [simpl in HN; lia | lia]).
    rewrite Hl. reflexivity.
  - simpl. destruct (now <? e) eqn:Hl; [|reflexivity].
    apply Z.ltb_lt in Hl.
    destruct N as [|N]; [simpl in HN; lia|].
    assert (HN' : forall x : nat, e - (now + round_ms + Z.of_nat x) <= Z.of_nat N * round_ms)
      by (intros x; rewrite Nat2Z.inj_succ in HN; lia).
    destruct checks as [|[|x|] rest]; try reflexivity.
    + rewrite (IH N (now + round_ms) e [] ltac:(specialize (HN' 0%nat); simpl in HN'; lia)
                 ltac:(lia)). reflexivity.
    + rewrite (IH N (now + round_ms + Z.of_nat x) e rest (HN' x) ltac:(lia)). reflexivity.
Qed.

(** Checks that each time out in the least time, then a check that sees
    the chat list: success when that check starts before [end_time]. *)
Lemma wait_poll_found (j : nat) : forall (fuel : nat) (now end_time : Z) (rest : list Check),
  (j < fuel)%nat -> now + Z.of_nat j * round_ms < end_time ->
  wait_poll fuel now end_time (repeat (CTimeout 0) j ++ CFound :: rest)%list = (true, S j).
Proof.
  pose proof round_ms_pos as HR.
  induction j as [|j IH]; intros fuel now e rest Hf He;
    (destruct fuel as [|fuel]; [lia|]); simpl.
  - assert (Hl : (now <? e) = true) by (apply Z.ltb_lt; lia). rewrite Hl. reflexivity.
  - assert (Hl : (now <? e) = true) by (apply Z.ltb_lt; lia). rewrite Hl.
    rewrite Z.add_0_r, (IH fuel (now + round_ms) e rest ltac:(lia) ltac:(lia)). reflexivity.
Qed.

(** With [implicitly_wait(5)], a check that does not find the chat list
    lasts at least 20.5 s (four [find_element] calls of 5 s each and the
    0.5 s poll of [WebDriverWait]), and 22.5 s with the 2 s sleep after it.
    [_wait_for_authentication(timeout)] therefore makes at most
    [N = ceil(1000 * timeout / 22500)] checks (14 for the default 300 s).
    It succeeds only when a check among the first [N] sees the chat list
    and every check before it timed out: an error raised by a check ends
    the loop with False.  When the checks before it time out in the least
    time, a scan seen by check [j + 1] is a success exactly when [j < N].
    The fuel of the model is no bound: more changes nothing. *)
Theorem X_wait_for_authentication_rounds (timeout now : Z) (checks : list Check) :
  0 <= timeout ->
  let N := Z.to_nat ((1000 * timeout + round_ms - 1) / round_ms) in
  let (r, k) := wait_for_authentication_poll timeout now checks in
  (k <= N)%nat /\
  (r = true -> exists pre rest, checks = (pre ++ CFound :: rest)%list /\
     Forall (fun c => exists x, c = CTimeout x) pre /\ (length pre < N)%nat) /\
  (forall j rest, checks = (repeat (CTimeout 0) j ++ CFound :: rest)%list ->
     r = true <-> (j < N)%nat) /\
  (forall m, wait_poll (S (Z.to_nat timeout) + m) now (now + 1000 * timeout) checks = (r, k)).
Proof.
  intros Ht. cbv zeta.
  set (q := (1000 * timeout + round_ms - 1) / round_ms).
  assert (Hq : 0 <= 1000 * timeout + round_ms - 1 - q * round_ms < round_ms).
  { pose proof (Z.div_mod (1000 * timeout + round_ms - 1) round_ms) as H.
    pose proof (Z.mod_pos_bound (1000 * timeout + round_ms - 1) round_ms) as H'.
    unfold q. unfold round_ms, failed_check_ms in *. lia. }
  assert (Hq0 : 0 <= q) by (unfold q; apply Z.div_pos; unfold round_ms, failed_check_ms; lia).
  assert (HN : (now + 1000 * timeout) - now <= Z.of_nat (Z.to_nat q) * round_ms)
    by (rewrite Z2Nat.id by exact Hq0; lia).
  assert (HqT : (Z.to_nat q <= S (Z.to_nat timeout))%nat).
  { unfold round_ms, failed_check_ms in Hq. lia. }
  unfold wait_for_authentication_poll.
  pose proof (wait_poll_bound (S (Z.to_nat timeout)) (Z.to_nat q) now (now + 1000 * timeout)
                checks HN) as Hb.
  pose proof (wait_poll_fuel (S (Z.to_nat timeout)) (Z.to_nat q) now (now + 1000 * timeout)
                checks HN HqT) as Hf.
  destruct (wait_poll (S (Z.to_nat timeout)) now (now + 1000 * timeout) checks) as [r k] eqn:E.
  destruct Hb as [Hk Hr].
  split; [exact Hk|]. split; [exact Hr|]. split; [|exact Hf].
  intros j rest Hc. split.
  - intros Htrue. destruct (Hr Htrue) as [pre [rest' [Hc' [Hpre Hlen]]]].
    destruct (Nat.lt_ge_cases j (Z.to_nat q)) as [Hj | Hj]; [exact Hj|]. exfalso.
    assert (Hn1 : nth_error checks (length pre) = Some CFound).
    { rewrite Hc', nth_error_app2 by lia. rewrite Nat.sub_diag. reflexivity. }
    assert (Hn2 : nth_error checks (length pre) = Some (CTimeout 0)).
    { rewrite Hc, nth_error_app1 by (rewrite repeat_length; lia).
      apply nth_error_repeat. lia. }
    congruence.
  - intros Hj. rewrite Hc in E.
    rewrite (wait_poll_found j (S (Z.to_nat timeout)) now (now + 1000 * timeout) rest) in E.
    + injection E as <- _. reflexivity.
    + lia.
    + assert (Hj' : Z.of_nat j < q) by lia.
      assert (Hj'' : Z.of_nat j * round_ms <= (q - 1) * round_ms)
        by (apply Z.mul_le_mono_nonneg_r; [unfold round_ms, failed_check_ms; lia | lia]).
      lia.
Qed.

Lemma X_wait_for_authentication_rounds_witness :
  fst (wait_for_authentication_poll 300 0 (repeat (CTimeout 0) 13 ++ [CFound])%list) = true /\
  fst (wait_for_authentication_poll 300 0 (repeat (CTimeout 0) 14 ++ [CFound])%list) = false.
Proof.
  split.
  - pose proof (X_wait_for_authentication_rounds 300 0
                  (repeat (CTimeout 0) 13 ++ [CFound])%list ltac:(lia)) as H.
    cbv zeta in H. destruct (wait_for_authentication_poll _ _ _) as [r k]. simpl.
    apply (proj1 (proj2 (proj2 H)) 13%nat [] eq_refl).
    apply Nat.ltb_lt. vm_compute. reflexivity.
  - pose proof (X_wait_for_authentication_rounds 300 0
                  (repeat (CTimeout 0) 14 ++ [CFound])%list ltac:(lia)) as H.
    cbv zeta in H. destruct (wait_for_authentication_poll _ _ _) as [r k]. simpl.
    destruct r; [|reflexivity]. exfalso.
    pose proof (proj1 (proj1 (proj2 (proj2 H)) 14%nat [] eq_refl) eq_refl) as Hl.
    apply Nat.ltb_lt in Hl. vm_compute in Hl. discriminate Hl.
Defined.

(** ** C4: replacing or deleting a registered session *)

Lemma dict_set_unregistered (d : list (string * nat)) (k : string) (o v : nat) :
  NoDup (map snd d) -> dict_get d k = Some o -> o <> v -> ~ In o (map snd (dict_set d k v)).
Proof.
  induction d as [|[k' v'] d IH]; simpl; [discriminate|].
  intros Hd. inversion Hd as [|? ? Hn Hd']; subst.
  destruct (String.eqb k k') eqn:E.
  - intros H Hne. injection H as <-. simpl. intros [H | H]; [exact (Hne (eq_sym H)) | exact (Hn H)].
  - intros Hg Hne. simpl. intros [Hv | Hin].
    + subst v'. apply Hn. exact (in_map snd _ _ (dict_get_In d k o Hg)).
    + exact (IH Hd' Hg Hne Hin).
Qed.

(** C4 counterexample: the driver of the registered bot raises on its first
    [quit()].  [get_or_create_bot("d", force_new=True)] replaces the entry
    and the old bot is freed; its [__del__] makes the only call to
    [quit()], which raises: no driver is quit, although the old object is
    gone.  [delete_session] on the same state calls [quit()] twice ([close]
    and then [__del__]), and the second call quits driver 7. *)
Lemma C4_replace_counterexample :
  let '(o, w') := get_or_create_bot true "d" true retry_world in
  o = 1%nat /\ w_reg w' = [("d", 1%nat)] /\ w_heap w' 0%nat = None /\ w_quits w' = [] /\
  w_reg (snd (delete_session "d" retry_world)) = [] /\
  w_quits (snd (delete_session "d" retry_world)) = [7%nat].
Proof. vm_compute. repeat split. Qed.

(** C4 (amended). On a well-formed registry, let [dev] be registered to an
    object [o] that holds a driver.  [get_or_create_bot(dev,
    force_new=True)] registers a new object under [dev]; [o] is freed, and
    its finalizer quits the driver unless that single [quit()] raises.
    [delete_session(dev)] unregisters [dev] and frees [o]; the driver is
    quit unless both of its two [quit()] calls ([close], then [__del__])
    raise. *)
Theorem C4_replace_and_delete (HEADLESS : bool) (dev : string) (w : World) (o : nat)
    (b : Bot) (d : Driver) :
  wf_registry w -> dict_get (w_reg w) dev = Some o -> w_heap w o = Some b ->
  driver b = Some d ->
  (let '(o', w') := get_or_create_bot HEADLESS dev true w in
   dict_get (w_reg w') dev = Some o' /\ o' <> o /\ w_heap w' o = None /\
   w_quits w' =
     (w_quits w ++ match drv_quit_raises d with true :: _ => [] | _ => [drv_id d] end)%list) /\
  (let w' := snd (delete_session dev w) in
   dict_get (w_reg w') dev = None /\ w_heap w' o = None /\
   w_quits w' =
     (w_quits w ++ match drv_quit_raises d with
                   | true :: true :: _ => [] | _ => [drv_id d] end)%list).
Proof.
  intros (Hk & Ho & Hl) Hg Hb Hd.
  destruct (Hl dev o (dict_get_In _ _ _ Hg)) as [Hlt _].
  split.
  - pose proof (get_or_create_create HEADLESS dev true w (or_introl eq_refl)) as Hc.
    destruct (get_or_create_bot HEADLESS dev true w) as [o' w'].
    destruct Hc as [w3 [Hw' (-> & Hr & Hh & _ & _ & _ & Hq & _)]].
    rewrite Hg in Hw'. subst w'.
    assert (Hne : o <> w_next_oid w) by lia.
    assert (Hnr : registered o w3 = false).
    { apply not_true_is_false. rewrite registered_In, Hr.
      exact (dict_set_unregistered _ _ _ _ Ho Hg Hne). }
    unfold release. rewrite Hnr.
    destruct (finalize_spec o w3) as (F1 & _ & _ & F4 & _ & F6).
    split; [rewrite F1, Hr; apply dict_get_set|].
    split; [intros E; apply Hne; symmetry; exact E|].
    split; [exact F4|].
    rewrite F6, Hq, Hh. unfold heap_set. apply Nat.eqb_neq in Hne. rewrite Hne, Hb.
    unfold quit_of. rewrite Hd. reflexivity.
  - destruct (delete_session_state dev w o b Hg Hb) as (_ & Hr & _ & _ & Hdel).
    destruct (Hdel Ho) as [H1 H2]. cbv zeta.
    split; [rewrite Hr; apply dict_get_del; exact Hk|].
    split; [exact H1|].
    rewrite H2, quit_twice, Hd. reflexivity.
Qed.

Lemma C4_replace_and_delete_witness :
  w_quits (snd (get_or_create_bot true "d" true retry_world)) = [] /\
  w_quits (snd (delete_session "d" retry_world)) = [7%nat].
Proof.
  destruct (C4_replace_and_delete true "d" retry_world 0 retry_bot (mkDriver 7 [true])
              retry_world_wf eq_refl eq_refl eq_refl) as [H1 H2].
  split.
  - destruct (get_or_create_bot true "d" true retry_world) as [o' w']. simpl.
    rewrite (proj2 (proj2 (proj2 H1))). reflexivity.
  - cbv zeta in H2. rewrite (proj2 (proj2 H2)). reflexivity.
Defined.
